(** * FinancialDashboard.js: a shallow embedding and its properties

    The view of [static/js/FinancialDashboard.js] is embedded in three layers:

    - the JavaScript values the view handles (what [JSON.parse] can return,
      with IEEE-754 doubles as Rocq's primitive floats), and the handful of
      engine operations the source applies to them;
    - the three formatters, the metric card, the chart adapter and the
      dashboard part of the render function, as functions into a result
      type that records a thrown exception;
    - the two asynchronous handlers, as resumable computations over the
      component state that suspend at every [await].

    Strings produced by the host (Intl, locale routines, the engine's own
    error texts) are kept as symbolic leaves: the development never guesses
    their characters. *)

From Stdlib Require Import String Ascii List ZArith Lia Bool.
From Stdlib Require Import Floats DecimalString.
From ExtLib Require Import Structures.Monad.
Import ListNotations.
Import MonadNotation.
Local Open Scope string_scope.
Local Open Scope monad_scope.

(** ** JavaScript values *)

#[local] Set Warnings "-register-all,-inexact-float".

(** What [JSON.parse] can return, plus [undefined] (what reading a missing
    property gives).  An object is its list of own properties in insertion
    order. *)
Inductive jsval : Type :=
| VUndefined
| VNull
| VBool (b : bool)
| VNum (x : float)
| VStr (s : string)
| VArr (items : list jsval)
| VObj (fields : list (string * jsval)).

(** The text of an exception.  [Msg] is text the program itself supplies or
    the host hands in; the other constructors stand for text the engine
    composes. *)
Inductive message : Type :=
| Msg (s : string)
| ToString (v : jsval)                  (* what String(v) comes to, v not a string *)
| CannotRead (key : string) (v : jsval) (* reading [key] of null / undefined *)
| NotAFunction (key : string) (v : jsval).

Inductive exn : Type :=
| Thrown (name : string) (msg : message).

Definition exn_message (e : exn) : message :=
  match e with Thrown _ m => m end.

(** [new Error(v)]: the message is [ToString(v)] unless [v] is undefined. *)
Definition new_Error (v : jsval) : exn :=
  Thrown "Error"
    match v with
    | VStr s => Msg s
    | VUndefined => Msg ""
    | _ => ToString v
    end.

Definition TypeError (m : message) : exn := Thrown "TypeError" m.

(** A completed evaluation: a value, or a thrown exception. *)
Inductive result (A : Type) : Type :=
| Ok (a : A)
| Throw (e : exn).
Arguments Ok {A} a.
Arguments Throw {A} e.

#[export] Instance Monad_result : Monad result :=
  {| ret := @Ok;
     bind := fun _ _ c f => match c with Ok a => f a | Throw e => Throw e end |}.

(** *** Engine operations *)

(** [ToBoolean]. *)
Definition ToBoolean (v : jsval) : bool :=
  match v with
  | VUndefined | VNull => false
  | VBool b => b
  | VNum x => negb (is_zero x || is_nan x)
  | VStr s => negb (String.eqb s "")
  | VArr _ | VObj _ => true
  end.

(** [a || b] *)
Definition js_or (a b : jsval) : jsval := if ToBoolean a then a else b.

(** [v === null || v === undefined] *)
Definition nullish (v : jsval) : bool :=
  match v with VUndefined | VNull => true | _ => false end.

Fixpoint lookup (key : string) (fields : list (string * jsval)) : jsval :=
  match fields with
  | [] => VUndefined
  | (k, v) :: rest => if String.eqb k key then v else lookup key rest
  end.

(** [v.key] for a key that no prototype defines (every key the source reads
    by name is of that sort). *)
Definition get (v : jsval) (key : string) : result jsval :=
  match v with
  | VUndefined | VNull => Throw (TypeError (CannotRead key v))
  | VObj fields => Ok (lookup key fields)
  | _ => Ok VUndefined
  end.

Definition index_text (i : nat) : string :=
  NilZero.string_of_uint (Nat.to_uint i).

(** [v[i]] for a literal index [i]. *)
Definition at_index (v : jsval) (i : nat) : result jsval :=
  match v with
  | VUndefined | VNull => Throw (TypeError (CannotRead (index_text i) v))
  | VArr items => Ok (nth i items VUndefined)
  | VStr s => Ok match String.get i s with
                 | Some c => VStr (String c EmptyString)
                 | None => VUndefined
                 end
  | VObj fields => Ok (lookup (index_text i) fields)
  | _ => Ok VUndefined
  end.

(** ** Display text *)

Record NumberFormatOptions : Type := {
  style : string;
  currency : string;
  minimumFractionDigits : nat;
  maximumFractionDigits : nat;
  notation : option string
}.

(** A piece of text on screen: characters the program fixes, or the output
    of a host routine applied to a value. *)
Inductive piece : Type :=
| Chars (s : string)
| NumberToString (x : float)
    (* Number::toString(x), used by toFixed from 1e21 on *)
| NumberFormat (o : NumberFormatOptions) (v : jsval)
    (* new Intl.NumberFormat('en-US', o).format(v) *)
| ToLocaleDateString (v : jsval)
    (* new Date(v).toLocaleDateString() *)
| ToLocaleString (v : jsval).
    (* v.toLocaleString() *)

Definition text : Type := list piece.

Definition lit (s : string) : text := [Chars s].

(** Concatenation, as in a template literal; adjacent characters merge. *)
Definition cat (a b : text) : text :=
  match a, b with
  | [Chars s], [Chars t] => [Chars (s ++ t)]
  | _, _ => (a ++ b)%list
  end.

(** *** Number.prototype.toFixed *)

(** The integer [n] for which [n / 10^digits - x] is closest to zero, the
    larger one on a tie, for a finite [x >= 0] given by its exact value
    [m * 2^e]. *)
Definition scaled (digits : nat) (x : spec_float) : Z :=
  match x with
  | S754_finite _ m e =>
      let num := (Z.pos m * 10 ^ Z.of_nat digits)%Z in
      if (0 <=? e)%Z then (num * 2 ^ e)%Z
      else ((2 * num + 2 ^ (- e)) / 2 ^ (- e + 1))%Z
  | _ => 0%Z
  end.

Fixpoint zeros (k : nat) : string :=
  match k with O => "" | S k' => String "0" (zeros k') end.

(** The decimal digits of [n] with a point before the last [digits] ones. *)
Definition fixed_digits (digits : nat) (n : Z) : string :=
  let m := NilZero.string_of_uint (N.to_uint (Z.to_N n)) in
  if Nat.eqb digits 0 then m
  else
    let m := zeros (S digits - String.length m) ++ m in
    let k := String.length m in
    substring 0 (k - digits) m ++ "." ++ substring (k - digits) digits m.

(** [x.toFixed(digits)] for [digits] in 0..100. *)
Definition toFixed (digits : nat) (x : float) : text :=
  if is_nan x then lit "NaN"
  else if is_infinity x then lit (if (x <? 0)%float then "-Infinity" else "Infinity")
  else if (1e21 <=? abs x)%float then [NumberToString x]
  else lit ((if (x <? 0)%float then "-" else "")
            ++ fixed_digits digits (scaled digits (Prim2SF (abs x)))).

(** ** Rendering code *)

(** An evaluation of rendering code: a value, a thrown exception, or
    [Beyond] when the run reaches an engine conversion that is not embedded
    (a string, array or object where a number or a date is wanted). *)
Inductive outcome (A : Type) : Type :=
| Val (a : A)
| Exn (e : exn)
| Beyond.
Arguments Val {A} a.
Arguments Exn {A} e.
Arguments Beyond {A}.

#[export] Instance Monad_outcome : Monad outcome :=
  {| ret := @Val;
     bind := fun _ _ c f =>
       match c with Val a => f a | Exn e => Exn e | Beyond => Beyond end |}.

Definition lift {A : Type} (r : result A) : outcome A :=
  match r with Ok a => Val a | Throw e => Exn e end.

(** [ToNumber] on the values it is embedded for. *)
Definition ToNumber (v : jsval) : outcome float :=
  match v with
  | VUndefined => Val nan
  | VNull => Val 0%float
  | VBool b => Val (if b then 1%float else 0%float)
  | VNum x => Val x
  | VStr _ | VArr _ | VObj _ => Beyond
  end.

Definition js_sub (a b : jsval) : outcome float :=
  x <- ToNumber a ;; y <- ToNumber b ;; ret (x - y)%float.
Definition js_div (a b : jsval) : outcome float :=
  x <- ToNumber a ;; y <- ToNumber b ;; ret (x / y)%float.
Definition js_mul (a b : jsval) : outcome float :=
  x <- ToNumber a ;; y <- ToNumber b ;; ret (x * y)%float.

(** [a >= b]: false as soon as one side is NaN. *)
Definition js_ge (a b : jsval) : outcome bool :=
  x <- ToNumber a ;; y <- ToNumber b ;; ret (y <=? x)%float.

(** A host routine applied to [v].  On a primitive its answer is a piece of
    text; an array or an object would first be converted to a primitive,
    which is not embedded. *)
Definition host (routine : jsval -> piece) (v : jsval) : outcome text :=
  match v with
  | VArr _ | VObj _ => Beyond
  | _ => Val [routine v]
  end.

(** ** Formatters *)

Definition formatPrice (value : jsval) : outcome text :=
  if nullish value then ret (lit "N/A")
  else host (NumberFormat {| style := "currency"; currency := "USD";
                             minimumFractionDigits := 2;
                             maximumFractionDigits := 2;
                             notation := None |}) value.

Definition formatCurrency (value : jsval) : outcome text :=
  if nullish value then ret (lit "N/A")
  else host (NumberFormat {| style := "currency"; currency := "USD";
                             minimumFractionDigits := 0;
                             maximumFractionDigits := 0;
                             notation := Some "compact" |}) value.

Definition formatPercent (value : jsval) : outcome text :=
  if nullish value then ret (lit "N/A")
  else match value with
       | VNum x => ret (cat (toFixed 2 x) (lit "%"))
       | _ => Exn (TypeError (NotAFunction "toFixed" value))
       end.

(** ** The metric card *)

Inductive trend : Type :=
| Up     (* the arrow up, in the green tone *)
| Down.  (* the arrow down, in the red tone *)

Record Card : Type := {
  card_title : string;
  card_value : text;
  card_date : option text;
  card_change : option (trend * text)
}.

Record CardProps : Type := {
  title : string;
  value : jsval;
  previousValue : jsval;
  date : jsval;
  formatFn : option (jsval -> outcome text)
}.

(** The values a metric takes: a number, or absent. *)
Definition numeric_or_absent (v : jsval) : bool :=
  match v with VUndefined | VNull | VNum _ => true | _ => false end.

(** Not an array or an object. *)
Definition primitive (v : jsval) : bool :=
  match v with VArr _ | VObj _ => false | _ => true end.

(** A parameter's default value replaces [undefined] only. *)
Definition or_default (v d : jsval) : jsval :=
  match v with VUndefined => d | _ => v end.

(** Line 98: [previousValue ? ((value - previousValue) / previousValue) * 100 : null],
    with [None] for [null]. *)
Definition percent_change (value previousValue : jsval) : outcome (option float) :=
  if ToBoolean previousValue then
    d <- js_sub value previousValue ;;
    q <- js_div (VNum d) previousValue ;;
    c <- js_mul (VNum q) (VNum 100) ;;
    ret (Some c)
  else ret None.

(** Lines 111-115: the indicator is there when [change !== null && !isNaN(change)]. *)
Definition change_indicator (change : option float) : option (trend * text) :=
  match change with
  | Some c =>
      if negb (is_nan c)
      then Some (if (0 <=? c)%float then Up else Down,
                 cat (toFixed 1 (abs c)) (lit "%"))
      else None
  | None => None
  end.

Definition renderMetricCard (p : CardProps) : outcome Card :=
  let previousValue := or_default (previousValue p) VNull in
  let date := or_default (date p) VNull in
  let formatFn := match formatFn p with Some f => f | None => formatCurrency end in
  change <- percent_change (value p) previousValue ;;
  shown <- formatFn (value p) ;;
  as_of <- (if ToBoolean date
            then d <- host ToLocaleDateString date ;; ret (Some d)
            else ret None) ;;
  ret {| card_title := title p;
         card_value := shown;
         card_date := as_of;
         card_change := change_indicator change |}.

(** ** The chart adapter *)

Record ChartPoint : Type := {
  point_date : jsval;
  revenue : jsval;
  netIncome : jsval;
  profitMargin : jsval
}.

(** Lines 231-236, the arrow function of [map]. *)
Definition chart_point (q : jsval) : result ChartPoint :=
  d <- get q "date" ;;
  m <- get q "metrics" ;; r <- get m "Revenue" ;;
  m <- get q "metrics" ;; n <- get m "NetIncome" ;;
  m <- get q "metrics" ;; p <- get m "ProfitMargin" ;;
  ret {| point_date := d; revenue := r; netIncome := n; profitMargin := p |}.

(** [items.map(f)] for an [f] that may throw: left to right, stopping at the
    first exception. *)
Fixpoint map_result {A B : Type} (f : A -> result B) (items : list A)
  : result (list B) :=
  match items with
  | [] => ret []
  | a :: rest => b <- f a ;; bs <- map_result f rest ;; ret (b :: bs)
  end.

(** [quarterly_data.map(q => ...)] *)
Definition chart_adapter (quarterly_data : jsval) : result (list ChartPoint) :=
  match quarterly_data with
  | VArr items => map_result chart_point items
  | VUndefined | VNull => Throw (TypeError (CannotRead "map" quarterly_data))
  | _ => Throw (TypeError (NotAFunction "map" quarterly_data))
  end.

(** A quarterly record as the data model has it: an object whose [metrics]
    property is an object. *)
Definition quarterly_record (q : jsval) : bool :=
  match q with
  | VObj fields =>
      match lookup "metrics" fields with VObj _ => true | _ => false end
  | _ => false
  end.

(** The own property [key] of an object ([undefined] elsewhere). *)
Definition property (v : jsval) (key : string) : jsval :=
  match v with VObj fields => lookup key fields | _ => VUndefined end.

(** The tuple the chart is to receive for a record, in the spec's words:
    its date, revenue, net income and profit margin, unchanged. *)
Definition tuple_of (q : jsval) : ChartPoint :=
  {| point_date := property q "date";
     revenue := property (property q "metrics") "Revenue";
     netIncome := property (property q "metrics") "NetIncome";
     profitMargin := property (property q "metrics") "ProfitMargin" |}.

(** ** The dashboard (lines 147-265 of the render function) *)

Record Header : Type := {
  company_name : jsval;
  company_ticker : jsval;
  sector : jsval;
  industry : jsval;
  market_cap : text;
  eps : text;
  employees : text;
  current_price : text;
  price_change : option (trend * text);
  last_updated : jsval
}.

Record Dashboard : Type := {
  header : Header;
  latest_quarter : text;
  previous_quarter : text;
  cards : list Card;
  chart : option (list ChartPoint)
}.

(** [data.company_info.key] *)
Definition company_info (data : jsval) (key : string) : outcome jsval :=
  lift (info <- get data "company_info" ;; get info key).

(** [data.quarterly_data[i]] *)
Definition quarter (data : jsval) (i : nat) : result jsval :=
  qd <- get data "quarterly_data" ;; at_index qd i.

(** [data.quarterly_data[0].metrics.key] *)
Definition latest_metric (data : jsval) (key : string) : outcome jsval :=
  lift (q <- quarter data 0 ;; m <- get q "metrics" ;; get m key).

(** [data.quarterly_data[1]?.metrics.key]: the chain stops at a nullish
    [data.quarterly_data[1]]. *)
Definition previous_metric (data : jsval) (key : string) : outcome jsval :=
  lift (q <- quarter data 1 ;;
        if nullish q then ret VUndefined
        else m <- get q "metrics" ;; get m key).

(** Lines 150-178. *)
Definition renderHeader (data : jsval) : outcome Header :=
  name <- company_info data "name" ;;
  tick <- company_info data "ticker" ;;
  sect <- company_info data "sector" ;;
  ind <- company_info data "industry" ;;
  cap <- company_info data "marketCap" ;; cap <- formatCurrency cap ;;
  e <- company_info data "eps" ;; e <- formatCurrency e ;;
  emp <- company_info data "employees" ;;
  emp <- (if nullish emp
          then Exn (TypeError (CannotRead "toLocaleString" emp))
          else host ToLocaleString emp) ;;
  price <- company_info data "currentPrice" ;; price <- formatPrice price ;;
  pc <- company_info data "priceChange" ;;
  change <- (if ToBoolean pc then
               up <- js_ge pc (VNum 0) ;;
               x <- ToNumber pc ;;
               ret (Some (if up : bool then Up else Down,
                          cat (toFixed 2 (abs x)) (lit "%")))
             else ret None) ;;
  updated <- company_info data "lastUpdated" ;;
  ret {| company_name := name; company_ticker := tick; sector := sect;
         industry := ind; market_cap := cap; eps := e; employees := emp;
         current_price := price; price_change := change;
         last_updated := updated |}.

(** Lines 187 and 191: [new Date(data.quarterly_data[i].date).toLocaleDateString()] *)
Definition quarter_date (data : jsval) (i : nat) : outcome text :=
  d <- lift (q <- quarter data i ;; get q "date") ;;
  host ToLocaleDateString d.

(** Lines 197-222: the four cards, behind [data.quarterly_data[0] &&]. *)
Definition renderCards (data : jsval) : outcome (list Card) :=
  q0 <- lift (quarter data 0) ;;
  if ToBoolean q0 then
    v <- latest_metric data "Revenue" ;;
    p <- previous_metric data "Revenue" ;;
    d <- lift (q <- quarter data 0 ;; get q "date") ;;
    c1 <- renderMetricCard {| title := "Revenue"; value := v;
                              previousValue := p; date := d;
                              formatFn := None |} ;;
    v <- latest_metric data "NetIncome" ;;
    p <- previous_metric data "NetIncome" ;;
    c2 <- renderMetricCard {| title := "Net Income"; value := v;
                              previousValue := p; date := VUndefined;
                              formatFn := None |} ;;
    v <- latest_metric data "ProfitMargin" ;;
    p <- previous_metric data "ProfitMargin" ;;
    c3 <- renderMetricCard {| title := "Profit Margin"; value := v;
                              previousValue := p; date := VUndefined;
                              formatFn := Some formatPercent |} ;;
    v <- latest_metric data "Assets" ;;
    p <- previous_metric data "Assets" ;;
    c4 <- renderMetricCard {| title := "Total Assets"; value := v;
                              previousValue := p; date := VUndefined;
                              formatFn := None |} ;;
    ret [c1; c2; c3; c4]
  else ret [].

(** Lines 225-265: the chart, when the host provides [window.Recharts]. *)
Definition renderChart (recharts : bool) (data : jsval)
  : outcome (option (list ChartPoint)) :=
  if recharts then
    points <- lift (qd <- get data "quarterly_data" ;; chart_adapter qd) ;;
    ret (Some points)
  else ret None.

(** [data && (...)]: nothing without a dataset, else the blocks in source
    order. *)
Definition renderDashboard (recharts : bool) (data : jsval)
  : outcome (option Dashboard) :=
  if ToBoolean data then
    h <- renderHeader data ;;
    latest <- quarter_date data 0 ;;
    previous <- quarter_date data 1 ;;
    cs <- renderCards data ;;
    ch <- renderChart recharts data ;;
    ret (Some {| header := h; latest_quarter := latest;
                 previous_quarter := previous; cards := cs; chart := ch |})
  else ret None.

(** ** The component state and the network *)

(** The seven [useState] cells of [FinancialDashboard]. *)
Record ViewState : Type := {
  ticker : string;
  loading : bool;
  error : message;
  data : jsval;
  analysisType : option string;   (* null, or the kind last asked for *)
  analysisContent : jsval;
  loadingAnalysis : bool
}.

(** The state of a freshly mounted component. *)
Definition initial : ViewState :=
  {| ticker := ""; loading := false; error := Msg ""; data := VNull;
     analysisType := None; analysisContent := VStr "";
     loadingAnalysis := false |}.

Inductive method : Type := GET | POST.

(** A request body: the JSON text of a value. *)
Inductive payload : Type :=
| JSON_stringify (v : jsval).

(** The characters of a URL.  They are known, or they are a known front
    followed by [s.toUpperCase()] for a text [s] whose upper-casing is left
    to the host (see [toUpperCase]); two leaves of the second sort may
    stand for the same characters. *)
Inductive location : Type :=
| Plain (s : string)
| UpperCased (front : string) (s : string).

Coercion Plain : string >-> location.

Record Request : Type := {
  http_method : method;
  url : location;
  headers : list (string * string);
  body : option payload
}.

(** A response: its [ok] flag (a 2xx status) and what [json()] resolves to
    or rejects with. *)
Record Response : Type := {
  ok : bool;
  json : result jsval
}.

(** How the promise of [fetch] settles. *)
Inductive settled : Type :=
| Fulfilled (r : Response)
| Rejected (e : exn).

(** ** Asynchronous code *)

(** A run of an [async] function: finished in a state, or suspended at an
    [await].  A suspended run resumes in whatever state the component is in
    by then; [Fetch] also waits for the network's answer. *)
Inductive run (A : Type) : Type :=
| Return (w : ViewState) (r : result A)
| Fetch (w : ViewState) (req : Request) (k : settled -> ViewState -> run A)
| Yield (w : ViewState) (k : ViewState -> run A).
Arguments Return {A} w r.
Arguments Fetch {A} w req k.
Arguments Yield {A} w k.

Definition task (A : Type) : Type := ViewState -> run A.

Fixpoint bind_run {A B : Type} (r : run A) (f : A -> task B) : run B :=
  match r with
  | Return w (Ok a) => f a w
  | Return w (Throw e) => Return w (Throw e)
  | Fetch w req k => Fetch w req (fun s w' => bind_run (k s w') f)
  | Yield w k => Yield w (fun w' => bind_run (k w') f)
  end.

#[export] Instance Monad_task : Monad task :=
  {| ret := fun _ a w => Return w (Ok a);
     bind := fun _ _ c f w => bind_run (c w) f |}.

Definition throw {A : Type} (e : exn) : task A :=
  fun w => Return w (Throw e).

(** A synchronous step that may throw. *)
Definition eval {A : Type} (r : result A) : task A :=
  fun w => Return w r.

(** [await fetch(...)] *)
Definition fetch (req : Request) : task Response :=
  fun w => Fetch w req (fun s w' =>
    match s with
    | Fulfilled r => Return w' (Ok r)
    | Rejected e => Return w' (Throw e)
    end).

(** [await response.json()] *)
Definition await_json (response : Response) : task jsval :=
  fun w => Yield w (fun w' => Return w' (json response)).

(** [try { ... } catch (err) { ... }] *)
Fixpoint catch_run {A : Type} (r : run A) (handler : exn -> task A) : run A :=
  match r with
  | Return w (Ok a) => Return w (Ok a)
  | Return w (Throw e) => handler e w
  | Fetch w req k => Fetch w req (fun s w' => catch_run (k s w') handler)
  | Yield w k => Yield w (fun w' => catch_run (k w') handler)
  end.

(** [... finally { ... }]: the cleanup runs however the block ended, and the
    block's own ending stands unless the cleanup throws. *)
Fixpoint finally_run {A : Type} (r : run A) (cleanup : task unit) : run A :=
  match r with
  | Return w res => bind_run (cleanup w) (fun _ w' => Return w' res)
  | Fetch w req k => Fetch w req (fun s w' => finally_run (k s w') cleanup)
  | Yield w k => Yield w (fun w' => finally_run (k w') cleanup)
  end.

Definition try_catch_finally {A : Type}
  (block : task A) (handler : exn -> task A) (cleanup : task unit) : task A :=
  fun w => finally_run (catch_run (block w) handler) cleanup.

(** *** State setters *)

(** A state with one cell replaced. *)
Definition with_ticker (t : string) (w : ViewState) : ViewState :=
  {| ticker := t; loading := loading w; error := error w;
     data := data w; analysisType := analysisType w;
     analysisContent := analysisContent w;
     loadingAnalysis := loadingAnalysis w |}.

Definition with_loading (b : bool) (w : ViewState) : ViewState :=
  {| ticker := ticker w; loading := b; error := error w;
     data := data w; analysisType := analysisType w;
     analysisContent := analysisContent w;
     loadingAnalysis := loadingAnalysis w |}.

Definition with_error (m : message) (w : ViewState) : ViewState :=
  {| ticker := ticker w; loading := loading w; error := m;
     data := data w; analysisType := analysisType w;
     analysisContent := analysisContent w;
     loadingAnalysis := loadingAnalysis w |}.

Definition with_data (v : jsval) (w : ViewState) : ViewState :=
  {| ticker := ticker w; loading := loading w; error := error w;
     data := v; analysisType := analysisType w;
     analysisContent := analysisContent w;
     loadingAnalysis := loadingAnalysis w |}.

Definition with_analysisType (t : option string) (w : ViewState) : ViewState :=
  {| ticker := ticker w; loading := loading w; error := error w;
     data := data w; analysisType := t;
     analysisContent := analysisContent w;
     loadingAnalysis := loadingAnalysis w |}.

Definition with_analysisContent (v : jsval) (w : ViewState) : ViewState :=
  {| ticker := ticker w; loading := loading w; error := error w;
     data := data w; analysisType := analysisType w;
     analysisContent := v;
     loadingAnalysis := loadingAnalysis w |}.

Definition with_loadingAnalysis (b : bool) (w : ViewState) : ViewState :=
  {| ticker := ticker w; loading := loading w; error := error w;
     data := data w; analysisType := analysisType w;
     analysisContent := analysisContent w;
     loadingAnalysis := b |}.

(** A setter returned by [useState]: it replaces its cell and cannot throw. *)
Definition set_state (f : ViewState -> ViewState) : task unit :=
  fun w => Return (f w) (Ok tt).

Definition setTicker (t : string) : task unit := set_state (with_ticker t).
Definition setLoading (b : bool) : task unit := set_state (with_loading b).
Definition setError (m : message) : task unit := set_state (with_error m).
Definition setData (v : jsval) : task unit := set_state (with_data v).
Definition setAnalysisType (t : option string) : task unit :=
  set_state (with_analysisType t).
Definition setAnalysisContent (v : jsval) : task unit :=
  set_state (with_analysisContent v).
Definition setLoadingAnalysis (b : bool) : task unit :=
  set_state (with_loadingAnalysis b).

(** ** The handlers *)

(** Strings are sequences of code units below 256; the ASCII ones are
    those below 128. *)
Definition ascii_text (s : string) : bool :=
  forallb (fun c => (nat_of_ascii c <? 128)%nat) (list_ascii_of_string s).

(** What [String.prototype.toUpperCase] does to an ASCII character: the
    letters a-z become A-Z, every other one stays. *)
Definition upper (c : ascii) : ascii :=
  let n := nat_of_ascii c in
  if (97 <=? n)%nat && (n <=? 122)%nat then ascii_of_nat (n - 32) else c.

Fixpoint upper_ascii (s : string) : string :=
  match s with
  | EmptyString => EmptyString
  | String c rest => String (upper c) (upper_ascii rest)
  end.

(** [s.toUpperCase()], where it is embedded: on ASCII text.  On any other
    text the result follows the Unicode case mapping of the host (which can
    change the length, as for the sharp s) and is not embedded. *)
Definition toUpperCase (s : string) : option string :=
  if ascii_text s then Some (upper_ascii s) else None.

(** [fetch(`/api/stock/${ticker.toUpperCase()}`)]: a GET, the default of
    [fetch]. *)
Definition search_request (ticker : string) : Request :=
  {| http_method := GET;
     url := match toUpperCase ticker with
            | Some upper_text => Plain ("/api/stock/" ++ upper_text)
            | None => UpperCased "/api/stock/" ticker
            end;
     headers := []; body := None |}.

(** Lines 38-62.  [c] is the state the handler closes over: what the render
    that created it saw.  ([e.preventDefault()] and [console.log] leave the
    state alone.) *)
Definition handleSearch (c : ViewState) : task unit :=
  if negb (ToBoolean (VStr (ticker c))) then ret tt
  else
    setLoading true ;;
    setError (Msg "") ;;
    setData VNull ;;
    setAnalysisContent (VStr "") ;;
    try_catch_finally
      (response <- fetch (search_request (ticker c)) ;;
       if negb (ok response) then
         errorData <- await_json response ;;
         e <- eval (get errorData "error") ;;
         throw (new_Error (js_or e (VStr "Failed to fetch data")))
       else
         result <- await_json response ;;
         setData result)
      (fun err => setError (exn_message err))
      (setLoading false).

(** [fetch(endpoint, { method: 'POST', headers: { 'Content-Type':
    'application/json' }, body: JSON.stringify(data) })] *)
Definition post_json (endpoint : string) (data : jsval) : Request :=
  {| http_method := POST;
     url := endpoint;
     headers := [("Content-Type", "application/json")];
     body := Some (JSON_stringify data) |}.

(** [type === 'analyze' ? 'analysis' : type === 'predict' ? 'prediction' : 'risk_assessment'] *)
Definition result_field (type : string) : string :=
  if String.eqb type "analyze" then "analysis"
  else if String.eqb type "predict" then "prediction"
  else "risk_assessment".

(** Lines 64-95. *)
Definition handleAnalysisClick (c : ViewState) (type : string) : task unit :=
  if negb (ToBoolean (data c)) then ret tt
  else
    setLoadingAnalysis true ;;
    setAnalysisType (Some type) ;;
    setAnalysisContent (VStr "") ;;
    try_catch_finally
      (let endpoint := "/api/" ++ type in
       response <- fetch (post_json endpoint (data c)) ;;
       if negb (ok response) then
         errorData <- await_json response ;;
         e <- eval (get errorData "error") ;;
         throw (new_Error (js_or e (VStr "Failed to generate analysis")))
       else
         result <- await_json response ;;
         v <- eval (get result (result_field type)) ;;
         setAnalysisContent v)
      (fun err => setError (exn_message err))
      (setLoadingAnalysis false).

(** *** Completing a run *)

(** The run carried to its end with nothing else touching the state while it
    is suspended; [net] is the network's answer to each request. *)
Fixpoint complete {A : Type} (net : Request -> settled) (r : run A)
  : ViewState * result A :=
  match r with
  | Return w res => (w, res)
  | Fetch w req k => complete net (k (net req) w)
  | Yield w k => complete net (k w)
  end.

(** The run carried to its end while other handlers may run at each
    suspension: it resumes in an arbitrary state. *)
Inductive finishes {A : Type} (net : Request -> settled)
  : run A -> ViewState -> result A -> Prop :=
| finishes_return w res :
    finishes net (Return w res) w res
| finishes_fetch w req k w' wf res :
    finishes net (k (net req) w') wf res ->
    finishes net (Fetch w req k) wf res
| finishes_yield w k w' wf res :
    finishes net (k w') wf res ->
    finishes net (Yield w k) wf res.

(** The request a run is waiting on, if it is suspended in [fetch]. *)
Definition pending {A : Type} (r : run A) : option (ViewState * Request) :=
  match r with
  | Fetch w req _ => Some (w, req)
  | _ => None
  end.

(** *** What a request comes to *)

(** The two [try] blocks read as a function of how the fetch settled: the
    message that ends in the error slot (left), or the value that is stored
    (right).  [fallback] is the handler's own message and [pick] what it
    takes from the body of a 2xx response. *)
Definition request_outcome (fallback : string) (pick : jsval -> result jsval)
  (s : settled) : message + jsval :=
  match s with
  | Rejected e => inl (exn_message e)
  | Fulfilled r =>
      match json r with
      | Throw e => inl (exn_message e)
      | Ok parsed =>
          if ok r then
            match pick parsed with
            | Ok v => inr v
            | Throw e => inl (exn_message e)
            end
          else
            match get parsed "error" with
            | Ok e => inl (exn_message (new_Error (js_or e (VStr fallback))))
            | Throw e => inl (exn_message e)
            end
      end
  end.

Definition search_outcome (s : settled) : message + jsval :=
  request_outcome "Failed to fetch data" Ok s.

Definition analysis_outcome (type : string) (s : settled) : message + jsval :=
  request_outcome "Failed to generate analysis"
    (fun parsed => get parsed (result_field type)) s.

(** The state in which a search is waiting for its response, and the one
    in which an analysis request is. *)
Definition searching (w : ViewState) : ViewState :=
  {| ticker := ticker w; loading := true; error := Msg ""; data := VNull;
     analysisType := analysisType w; analysisContent := VStr "";
     loadingAnalysis := loadingAnalysis w |}.

Definition analysing (type : string) (w : ViewState) : ViewState :=
  {| ticker := ticker w; loading := loading w; error := error w;
     data := data w; analysisType := Some type;
     analysisContent := VStr ""; loadingAnalysis := true |}.

(** ** The rest of the view *)

(** The text input's [onChange] (line 127). *)
Definition handleChange (typed_text : string) : task unit :=
  setTicker typed_text.

(** Lines 122-139: the search form. *)
Record Form : Type := {
  input_value : string;
  submit_disabled : bool;
  submit_label : string
}.

Definition renderForm (st : ViewState) : Form :=
  {| input_value := ticker st;
     submit_disabled := loading st || negb (ToBoolean (VStr (ticker st)));
     submit_label := if loading st then "Searching..." else "Search" |}.

(** Lines 141-145: [error && <div>{error}</div>].  Whether a text the
    engine composed is empty is not embedded. *)
Definition renderBanner (st : ViewState) : outcome (option message) :=
  match error st with
  | Msg s => ret (if String.eqb s "" then None else Some (Msg s))
  | _ => Beyond
  end.

(** Lines 267-284: one button per analysis kind. *)
Record Button : Type := {
  button_kind : string;
  button_tone : string;
  button_label : string;
  button_disabled : bool;
  button_click : task unit
}.

Definition analysisButton (st : ViewState) (type : string) : Button :=
  {| button_kind := type;
     button_tone :=
       if String.eqb type "analyze" then "bg-blue-600 hover:bg-blue-700"
       else if String.eqb type "predict" then "bg-green-600 hover:bg-green-700"
       else "bg-yellow-600 hover:bg-yellow-700";
     button_label :=
       if String.eqb type "analyze" then "Analyze Financials"
       else if String.eqb type "predict" then "Predict Next Quarter"
       else "Risk Assessment";
     button_disabled := loadingAnalysis st;
     button_click := handleAnalysisClick st type |}.

Definition analysisButtons (st : ViewState) : list Button :=
  map (analysisButton st) ["analyze"; "predict"; "risk"].

Definition LF : ascii := "010"%char.

(** [text.split('\n\n')]: cut at each pair of line feeds, left to right;
    [acc] is the paragraph read so far. *)
Fixpoint split_paragraphs (s acc : string) : list string :=
  match s with
  | EmptyString => [acc]
  | String c rest =>
      match rest with
      | String c' rest' =>
          if Ascii.eqb c LF && Ascii.eqb c' LF
          then acc :: split_paragraphs rest' EmptyString
          else split_paragraphs rest (acc ++ String c EmptyString)
      | EmptyString => [acc ++ String c EmptyString]
      end
  end.

(** Lines 292-307: the analysis, one [<p>] per paragraph, under a heading
    chosen by the selected kind. *)
Record Prose : Type := {
  prose_heading : string;
  paragraphs : list string
}.

Definition renderAnalysis (st : ViewState) : result (option Prose) :=
  if ToBoolean (analysisContent st) then
    let heading :=
      match analysisType st with
      | Some "analyze" => "Financial Analysis"
      | Some "predict" => "Next Quarter Prediction"
      | _ => "Risk Assessment"
      end in
    match analysisContent st with
    | VStr s => Ok (Some {| prose_heading := heading;
                            paragraphs := split_paragraphs s EmptyString |})
    | v => Throw (TypeError (NotAFunction "split" v))
    end
  else Ok None.

(** What [v && <element>] leaves in the page: the element when [v] is
    truthy, [v] itself when it is falsy. *)
Inductive guarded (A : Type) : Type :=
| Shown (a : A)
| Residue (v : jsval).
Arguments Shown {A} a.
Arguments Residue {A} v.

(** What React displays for a falsy value left in the page: nothing for
    null, undefined, false and the empty string; a number is printed, and
    the falsy numbers are 0, -0 (both printed "0") and NaN. *)
Definition residue_text (v : jsval) : option string :=
  match v with
  | VNum x => Some (if is_nan x then "NaN" else "0")
  | _ => None
  end.

(** Lines 147-309: everything behind [data &&]. *)
Record Panel : Type := {
  panel_dashboard : Dashboard;
  panel_buttons : list Button;
  panel_spinner : bool;
  panel_analysis : guarded Prose
}.

Record Page : Type := {
  page_form : Form;
  page_banner : option message;
  page_panel : guarded Panel
}.

(** Lines 120-311: the component's render, in source order. *)
Definition render (recharts : bool) (st : ViewState) : outcome Page :=
  let form := renderForm st in
  banner <- renderBanner st ;;
  dashboard <- renderDashboard recharts (data st) ;;
  panel <- match dashboard with
           | Some d =>
               a <- lift (renderAnalysis st) ;;
               ret (Shown {| panel_dashboard := d;
                             panel_buttons := analysisButtons st;
                             panel_spinner := loadingAnalysis st;
                             panel_analysis :=
                               match a with
                               | Some prose => Shown prose
                               | None => Residue (analysisContent st)
                               end |})
           | None => ret (Residue (data st))
           end ;;
  ret {| page_form := form; page_banner := banner; page_panel := panel |}.

(** *** Runs observed from outside *)

(** The requests a sequential run sends, in order. *)
Fixpoint requests {A : Type} (net : Request -> settled) (r : run A)
  : list Request :=
  match r with
  | Return _ _ => []
  | Fetch w req k => req :: requests net (k (net req) w)
  | Yield w k => requests net (k w)
  end.

(** A suspended run resumed in the state [w'] the component has reached
    meanwhile, then carried to its end. *)
Definition resume {A : Type} (net : Request -> settled) (r : run A)
  (w' : ViewState) : ViewState * result A :=
  match r with
  | Return w res => (w, res)
  | Fetch _ req k => complete net (k (net req) w')
  | Yield _ k => complete net (k w')
  end.

(** [parts.join(sep)] *)
Fixpoint join (sep : string) (parts : list string) : string :=
  match parts with
  | [] => EmptyString
  | [p] => p
  | p :: rest => p ++ sep ++ join sep rest
  end.

Definition blank_line : string := String LF (String LF EmptyString).

(** A record the arrow function of the chart adapter can read: an object
    whose [metrics] property is neither null nor undefined. *)
Definition chartable (q : jsval) : bool :=
  match q with
  | VObj fields => negb (nullish (lookup "metrics" fields))
  | _ => false
  end.

(** ** Sample data *)

(** A network that gives every request the same answer. *)
Definition answers (r : Response) : Request -> settled :=
  fun _ => Fulfilled r.

(** The mounted component after the user typed [t] (line 127). *)
Definition typed (t : string) : ViewState := with_ticker t initial.

Definition sample_company : jsval :=
  VObj [("name", VStr "Apple Inc."); ("ticker", VStr "AAPL");
        ("sector", VStr "Technology");
        ("industry", VStr "Consumer Electronics");
        ("marketCap", VNum 3e12); ("eps", VNum 6.5);
        ("employees", VNum 164000); ("currentPrice", VNum 190.5);
        ("priceChange", VNum 1.25); ("lastUpdated", VStr "2024-05-01")].

Definition sample_quarter (day : string) (rev income margin assets : float)
  : jsval :=
  VObj [("date", VStr day);
        ("metrics", VObj [("Revenue", VNum rev); ("NetIncome", VNum income);
                          ("ProfitMargin", VNum margin);
                          ("Assets", VNum assets)])].

Definition snapshot (quarters : list jsval) : jsval :=
  VObj [("company_info", sample_company); ("quarterly_data", VArr quarters)].

Definition latest_quarter_sample : jsval :=
  sample_quarter "2024-03-31" 120 30 25 400.

Definition previous_quarter_sample : jsval :=
  sample_quarter "2023-12-31" 100 20 20 380.

(** The component showing a fetched snapshot, an earlier error still in
    its slot. *)
Definition showing (dataset : jsval) (m : message) : ViewState :=
  {| ticker := "aapl"; loading := false; error := m; data := dataset;
     analysisType := None; analysisContent := VStr "";
     loadingAnalysis := false |}.

(** * Properties *)

(** ** Doubles *)

Section Doubles.

Local Open Scope float_scope.

Lemma SFcompare_refl (s : spec_float) :
  s <> S754_nan -> SFcompare s s = Some Eq.
Proof.
  destruct s as [b | b | | b m e]; simpl; try congruence; intros _.
  - now destruct b.
  - rewrite Z.compare_refl, Pos.compare_cont_refl. now destruct b.
Qed.

Lemma SFltb_not_SFleb (a b : spec_float) :
  SFltb a b = true -> SFleb b a = false.
Proof.
  unfold SFltb, SFleb.
  destruct a as [sa | sa | | sa ma ea], b as [sb | sb | | sb mb eb];
    simpl; try congruence;
    try (destruct sa; simpl; congruence);
    try (destruct sb; simpl; congruence);
    try (destruct sa, sb; simpl; congruence).
  assert (Hm : Pos.compare_cont Eq mb ma = CompOpp (Pos.compare_cont Eq ma mb))
    by (rewrite Pos.compare_cont_antisym; reflexivity).
  destruct sa, sb; simpl; try congruence;
    rewrite (Z.compare_antisym ea eb), Hm;
    destruct (ea ?= eb)%Z; simpl; try congruence;
    destruct (Pos.compare_cont Eq ma mb); simpl; congruence.
Qed.

(** [c < 0] excludes [c >= 0]. *)
Lemma negative_not_ge (c : float) : (c <? 0) = true -> (0 <=? c) = false.
Proof. rewrite ltb_spec, leb_spec. apply SFltb_not_SFleb. Qed.

(** A number that is not NaN is below zero or not. *)
Lemma sign_cases (c : float) :
  is_nan c = false -> (0 <=? c) = true \/ (c <? 0) = true.
Proof.
  unfold is_nan. rewrite eqb_spec, ltb_spec, leb_spec.
  change (Prim2SF 0) with (S754_zero false).
  unfold SFeqb, SFltb, SFleb.
  destruct (Prim2SF c) as [b | b | | b m e]; simpl; try discriminate; intros _.
  - now left.
  - destruct b; [now right | now left].
  - destruct b; [now right | now left].
Qed.

(** What [abs c < 1e21] tells about the magnitude [abs c]: the tests of
    [toFixed] on it all fail. *)
Lemma small_magnitude (c : float) :
  (abs c <? 1e21) = true ->
  is_nan (abs c) = false /\ is_infinity (abs c) = false /\
  (1e21 <=? abs (abs c)) = false /\ (abs c <? 0) = false.
Proof.
  unfold is_nan, is_infinity.
  rewrite !ltb_spec, !leb_spec, !eqb_spec, !abs_spec.
  set (k := Prim2SF 1e21). vm_compute in k.
  change (Prim2SF 0) with (S754_zero false).
  change (Prim2SF infinity) with (S754_infinity false).
  intros H.
  assert (H' := SFltb_not_SFleb _ _ H).
  destruct (Prim2SF c) as [b | b | | b m e]; simpl in *;
    try discriminate; auto.
  repeat split; auto.
  unfold SFeqb. now rewrite SFcompare_refl.
Qed.

End Doubles.

(** ** Strings *)

Lemma length_append (s t : string) :
  String.length (s ++ t) = String.length s + String.length t.
Proof. induction s; simpl; congruence. Qed.

Lemma length_zeros (k : nat) : String.length (zeros k) = k.
Proof. induction k; simpl; congruence. Qed.

Lemma substring_one (s : string) (n : nat) :
  n < String.length s -> exists c, substring n 1 s = String c EmptyString.
Proof.
  revert n; induction s as [| a s IH]; simpl; intros n H; [lia |].
  destruct n as [| n].
  - exists a. now destruct s.
  - apply IH. lia.
Qed.

(** Below 1e21, [toFixed(1)] writes a finite magnitude with exactly one
    digit after the point. *)
Lemma toFixed_one_decimal (c : float) :
  (abs c <? 1e21)%float = true ->
  exists whole digit,
    toFixed 1 (abs c) = lit (whole ++ "." ++ String digit EmptyString).
Proof.
  intros H. destruct (small_magnitude c H) as (Hn & Hi & Hb & Hs).
  unfold toFixed. rewrite Hn, Hi, Hb, Hs. simpl append at 1.
  unfold fixed_digits. simpl Nat.eqb. cbv iota.
  set (m := (zeros _ ++ _)%string).
  assert (Hm : 2 <= String.length m).
  { subst m. rewrite length_append, length_zeros. lia. }
  destruct (substring_one m (String.length m - 1)) as [d Hd]; [lia |].
  exists (substring 0 (String.length m - 1) m), d. now rewrite Hd.
Qed.

(** ** Formatters *)

(** C2, as stated, fails: NaN is not treated as absent.  [formatPercent(NaN)]
    is the text "NaN%", not "N/A". *)
Lemma formatPercent_of_NaN : formatPercent (VNum nan) = Val (lit "NaN%").
Proof. reflexivity. Qed.

(** C2, amended: each of [formatPrice], [formatCurrency] and [formatPercent]
    returns "N/A" for null and for undefined, and returns without throwing on
    every number.  NaN is a number like another: the two currency formatters
    hand it to [Intl.NumberFormat], and [formatPercent] writes it with
    [toFixed(2)], which gives "NaN%". *)
Theorem formatters_absent_and_numbers :
  (formatPrice VNull = Val (lit "N/A") /\
   formatPrice VUndefined = Val (lit "N/A")) /\
  (formatCurrency VNull = Val (lit "N/A") /\
   formatCurrency VUndefined = Val (lit "N/A")) /\
  (formatPercent VNull = Val (lit "N/A") /\
   formatPercent VUndefined = Val (lit "N/A")) /\
  (forall x : float,
     (exists o, formatPrice (VNum x) = Val [NumberFormat o (VNum x)]) /\
     (exists o, formatCurrency (VNum x) = Val [NumberFormat o (VNum x)]) /\
     formatPercent (VNum x) = Val (cat (toFixed 2 x) (lit "%"))) /\
  (forall x : float,
     is_nan x = true -> formatPercent (VNum x) = Val (lit "NaN%")).
Proof.
  repeat split; try reflexivity.
  - eexists; reflexivity.
  - eexists; reflexivity.
  - intros x H. unfold formatPercent, toFixed. cbn [nullish]. now rewrite H.
Qed.

(** ** The metric card *)

Lemma bind_Val {A B : Type} (a : A) (f : A -> outcome B) :
  bind (Val a) f = f a.
Proof. reflexivity. Qed.

(** C7, as stated, fails: an infinite change is not omitted.  With a value
    of 1e308 against a previous value of 1e-300 the quotient overflows, the
    change is [Infinity], and the card shows the indicator "Infinity%"
    with the arrow up. *)
Lemma metric_card_shows_infinite_change :
  percent_change (VNum 1e308) (VNum 1e-300) = Val (Some infinity) /\
  renderMetricCard {| title := "Revenue"; value := VNum 1e308;
                      previousValue := VNum 1e-300; date := VUndefined;
                      formatFn := Some formatPercent |}
  = Val {| card_title := "Revenue";
           card_value := [NumberToString 1e308; Chars "%"];
           card_date := None;
           card_change := Some (Up, lit "Infinity%") |}.
Proof. split; vm_compute; reflexivity. Qed.

(** C7, amended.  For a card whose current and previous values are numbers
    or absent: the change is [(current - previous) / previous * 100] in
    double arithmetic; the indicator is omitted when the previous value is
    absent, zero or NaN, or the change is NaN, and shown in every other case
    (an infinite change included); a shown change that is positive or zero
    has the arrow up, a negative one the arrow down; and its magnitude
    [abs(change).toFixed(1)] has exactly one digit after the point whenever
    it is below 1e21. *)
Theorem metric_card_change
  (t : string) (v prev d : jsval) (fmt : option (jsval -> outcome text))
  (shown : text) :
  numeric_or_absent v = true ->
  numeric_or_absent prev = true ->
  primitive d = true ->
  match fmt with Some f => f | None => formatCurrency end v = Val shown ->
  exists (x y : float) (card : Card),
    ToNumber v = Val x /\
    ToNumber (or_default prev VNull) = Val y /\
    renderMetricCard {| title := t; value := v; previousValue := prev;
                        date := d; formatFn := fmt |} = Val card /\
    card_value card = shown /\
    let c := ((x - y) / y * 100)%float in
    (ToBoolean prev = false \/ is_nan c = true -> card_change card = None) /\
    (ToBoolean prev = true -> is_nan c = false ->
     exists tr : trend,
       card_change card = Some (tr, cat (toFixed 1 (abs c)) (lit "%")) /\
       ((0 <=? c)%float = true -> tr = Up) /\
       ((c <? 0)%float = true -> tr = Down) /\
       ((0 <=? c)%float = true \/ (c <? 0)%float = true) /\
       ((abs c <? 1e21)%float = true ->
        exists whole digit,
          toFixed 1 (abs c) = lit (whole ++ "." ++ String digit EmptyString))).
Proof.
  intros Hv Hp Hd Hf.
  assert (Hx : exists x, ToNumber v = Val x)
    by (destruct v; try discriminate; eexists; reflexivity).
  assert (Hy : exists y, ToNumber (or_default prev VNull) = Val y)
    by (destruct prev; try discriminate; eexists; reflexivity).
  destruct Hx as [x Hx], Hy as [y Hy].
  assert (Hdate : exists a, (if ToBoolean (or_default d VNull)
                             then e <- host ToLocaleDateString (or_default d VNull) ;; ret (Some e)
                             else ret None) = Val a).
  { destruct (ToBoolean (or_default d VNull)); [| eexists; reflexivity].
    destruct d; try discriminate; eexists; reflexivity. }
  destruct Hdate as [a Ha].
  set (c := ((x - y) / y * 100)%float).
  assert (Hc : percent_change v (or_default prev VNull)
               = Val (if ToBoolean prev then Some c else None)).
  { unfold percent_change, js_sub, js_div, js_mul.
    replace (ToBoolean (or_default prev VNull)) with (ToBoolean prev)
      by (now destruct prev).
    destruct (ToBoolean prev); [| reflexivity].
    rewrite Hx, Hy. reflexivity. }
  exists x, y.
  eexists. split; [exact Hx |]. split; [exact Hy |].
  split.
  { unfold renderMetricCard. cbn [title value previousValue date formatFn].
    rewrite Hc, bind_Val, Hf, bind_Val, Ha, bind_Val. reflexivity. }
  split; [reflexivity |].
  cbn [card_change]. fold c. split.
  - intros [H | H].
    + now rewrite H.
    + destruct (ToBoolean prev); [| reflexivity].
      unfold change_indicator. now rewrite H.
  - intros Ht Hn. rewrite Ht. unfold change_indicator. rewrite Hn.
    cbn [negb]. eexists. split; [reflexivity |].
    split; [intros H; now rewrite H |].
    split; [intros H; now rewrite (negative_not_ge c H) |].
    split; [now apply sign_cases | apply toFixed_one_decimal].
Qed.

(** A card with value 120 against a previous 100: the change is 20 percent,
    shown as "20.0%" with the arrow up. *)
Lemma metric_card_change_witness :
  numeric_or_absent (VNum 120) = true /\
  numeric_or_absent (VNum 100) = true /\
  primitive VUndefined = true /\
  exists card : Card,
    renderMetricCard {| title := "Revenue"; value := VNum 120;
                        previousValue := VNum 100; date := VUndefined;
                        formatFn := Some formatPercent |} = Val card /\
    card_value card = lit "120.00%" /\
    card_change card = Some (Up, lit "20.0%").
Proof.
  repeat split.
  destruct (metric_card_change "Revenue" (VNum 120) (VNum 100) VUndefined
              (Some formatPercent) (lit "120.00%")
              eq_refl eq_refl eq_refl eq_refl)
    as (x & y & card & Hx & Hy & Hcard & Hshown & _ & Hc).
  injection Hx as <-. injection Hy as <-.
  destruct (Hc eq_refl eq_refl) as (tr & Hch & Hup & _).
  exists card. repeat split; try assumption.
  rewrite Hch, (Hup eq_refl). reflexivity.
Defined.

(** ** The handlers *)

(** A sequential search, from start to end. *)
Lemma handleSearch_complete (net : Request -> settled) (c w : ViewState) :
  ticker c <> "" ->
  complete net (handleSearch c w) =
  (with_loading false
     match search_outcome (net (search_request (ticker c))) with
     | inl m => with_error m (searching w)
     | inr v => with_data v (searching w)
     end, Ok tt).
Proof.
  intros H. unfold handleSearch, search_outcome, request_outcome.
  destruct (ticker c) as [| a t] eqn:E; [congruence |].
  cbn.
  destruct (net _) as [[okb [parsed | e]] | e]; cbn;
    [destruct okb; cbn; [| destruct (get parsed "error"); cbn]
    | destruct okb; cbn |];
    reflexivity.
Qed.

(** A sequential analysis request, from start to end. *)
Lemma handleAnalysisClick_complete
  (net : Request -> settled) (c w : ViewState) (type : string) :
  ToBoolean (data c) = true ->
  complete net (handleAnalysisClick c type w) =
  (with_loadingAnalysis false
     match analysis_outcome type (net (post_json ("/api/" ++ type) (data c))) with
     | inl m => with_error m (analysing type w)
     | inr v => with_analysisContent v (analysing type w)
     end, Ok tt).
Proof.
  intros H. unfold handleAnalysisClick, analysis_outcome, request_outcome.
  rewrite H. cbn.
  destruct (net _) as [[okb [parsed | e]] | e]; cbn;
    [destruct okb; cbn;
       [destruct (get parsed (result_field type))
       | destruct (get parsed "error")]; cbn
    | destruct okb; cbn |];
    reflexivity.
Qed.

(** Every sequential completion is one of the runs [finishes] describes. *)
Lemma complete_finishes {A : Type} (net : Request -> settled) (r : run A) :
  finishes net r (fst (complete net r)) (snd (complete net r)).
Proof.
  induction r as [w res | w req k IH | w k IH]; simpl.
  - constructor.
  - econstructor. apply IH.
  - econstructor. apply IH.
Qed.

(** What a [finally] block establishes holds when the run ends, whatever
    the block did and whatever happened while it was suspended. *)
Lemma finishes_finally {A : Type} (net : Request -> settled)
  (f : ViewState -> ViewState) (P : ViewState -> Prop) (r : run A) :
  (forall w, P (f w)) ->
  forall wf res, finishes net (finally_run r (set_state f)) wf res -> P wf.
Proof.
  intros Hf. induction r as [w res0 | w req k IH | w k IH];
    intros wf res H; simpl in H.
  - inversion H; subst. apply Hf.
  - inversion H; subst. eapply IH; eassumption.
  - inversion H; subst. eapply IH; eassumption.
Qed.

Lemma length_upper_ascii (s : string) :
  String.length (upper_ascii s) = String.length s.
Proof. induction s; simpl; congruence. Qed.

Lemma get_upper_ascii (s : string) (i : nat) (ch : ascii) :
  String.get i s = Some ch -> String.get i (upper_ascii s) = Some (upper ch).
Proof.
  revert i; induction s as [| a s IH]; intros i H; [discriminate |].
  destruct i as [| i]; simpl in *; [now injection H as -> | now apply IH].
Qed.

(** C3.  With an empty ticker text [handleSearch] ends at once in the state
    it started in, with no request.  With a non-empty one it suspends in
    [fetch] on a GET of /api/stock/ followed by the upper-cased text, in a
    state where loading is set and the error, the dataset and the analysis
    text are cleared.  For ASCII text the upper-cased text is spelled out:
    it has the length of the ticker text and, place by place, its
    characters with a-z raised to A-Z; for other text it is what the
    host's [toUpperCase] gives. *)
Theorem handleSearch_submit (c w : ViewState) :
  (ticker c = "" -> handleSearch c w = Return w (Ok tt)) /\
  (ticker c <> "" ->
   exists k,
     handleSearch c w =
     Fetch {| ticker := ticker w; loading := true; error := Msg "";
              data := VNull; analysisType := analysisType w;
              analysisContent := VStr "";
              loadingAnalysis := loadingAnalysis w |}
           {| http_method := GET;
              url := match toUpperCase (ticker c) with
                     | Some upper_text => Plain ("/api/stock/" ++ upper_text)
                     | None => UpperCased "/api/stock/" (ticker c)
                     end;
              headers := []; body := None |}
           k) /\
  (ascii_text (ticker c) = true ->
   exists upper_text,
     toUpperCase (ticker c) = Some upper_text /\
     String.length upper_text = String.length (ticker c) /\
     forall i ch,
       String.get i (ticker c) = Some ch ->
       String.get i upper_text
       = Some (if (97 <=? nat_of_ascii ch)%nat && (nat_of_ascii ch <=? 122)%nat
               then ascii_of_nat (nat_of_ascii ch - 32) else ch)).
Proof.
  unfold handleSearch. split; [| split]; intros H.
  - now rewrite H.
  - destruct (ticker c) as [| a t] eqn:E; [congruence |].
    cbn -[toUpperCase]. eexists. reflexivity.
  - unfold toUpperCase. rewrite H. eexists. split; [reflexivity |].
    split; [apply length_upper_ascii |].
    intros i ch Hi. now apply get_upper_ascii.
Qed.

(** Typing "aapl" and submitting asks for /api/stock/AAPL; submitting the
    empty text does nothing. *)
Lemma handleSearch_submit_witness :
  ticker (typed "aapl") <> "" /\
  ascii_text (ticker (typed "aapl")) = true /\
  pending (handleSearch (typed "aapl") (typed "aapl"))
  = Some ({| ticker := "aapl"; loading := true; error := Msg "";
             data := VNull; analysisType := None;
             analysisContent := VStr ""; loadingAnalysis := false |},
          {| http_method := GET; url := "/api/stock/AAPL";
             headers := []; body := None |}) /\
  toUpperCase "brk.b" = Some "BRK.B" /\
  handleSearch (typed "") (typed "") = Return (typed "") (Ok tt).
Proof.
  assert (H : ticker (typed "aapl") <> "") by discriminate.
  split; [exact H |]. split; [reflexivity |]. split; [| split].
  - destruct (proj1 (proj2 (handleSearch_submit (typed "aapl") (typed "aapl")))
                H) as [k Hk].
    rewrite Hk. reflexivity.
  - reflexivity.
  - exact (proj1 (handleSearch_submit (typed "") (typed "")) eq_refl).
Defined.

(** C4, as stated, fails: a non-2xx response whose body has the error
    field [""] leaves "Failed to fetch data" in the error slot, not that
    field's string. *)
Lemma empty_error_field_gives_fallback :
  error (fst (complete
                (answers {| ok := false;
                            json := Ok (VObj [("error", VStr "")]) |})
                (handleSearch (typed "aapl") (typed "aapl"))))
  = Msg "Failed to fetch data".
Proof. reflexivity. Qed.

(** Reading a property of a value that is neither null nor undefined
    gives the own property, [undefined] when there is none. *)
Lemma get_property (v : jsval) (key : string) :
  nullish v = false -> get v key = Ok (property v key).
Proof. destruct v; try discriminate; reflexivity. Qed.

(** C4, amended.  After a search whose response is not 2xx and whose body
    parses to a JSON value other than null: an error field that is a
    non-empty string becomes the error state; a falsy one (undefined
    because the field is absent, the empty string, null, false, 0) gives
    "Failed to fetch data".  When the body parses to null, the error state
    is the text of the TypeError raised by reading its error field.  And
    whenever the search fails (the fetch is rejected, the status is not
    2xx, or the body cannot be parsed) the dataset is left absent. *)
Theorem search_failure (net : Request -> settled) (c w : ViewState) :
  ticker c <> "" ->
  let s := net (search_request (ticker c)) in
  let wf := fst (complete net (handleSearch c w)) in
  (forall r parsed,
     s = Fulfilled r -> ok r = false -> json r = Ok parsed ->
     nullish parsed = false ->
     (forall str, property parsed "error" = VStr str -> str <> "" ->
                  error wf = Msg str) /\
     (ToBoolean (property parsed "error") = false ->
      error wf = Msg "Failed to fetch data")) /\
  (forall r parsed,
     s = Fulfilled r -> ok r = false -> json r = Ok parsed ->
     nullish parsed = true ->
     error wf = CannotRead "error" parsed) /\
  ((exists e, s = Rejected e) \/
   (exists r, s = Fulfilled r /\ (ok r = false \/ exists e, json r = Throw e)) ->
   data wf = VNull).
Proof.
  intros H s wf. subst wf. rewrite (handleSearch_complete net c w H).
  fold s. unfold search_outcome, request_outcome. cbn [fst].
  split; [| split].
  - intros r parsed -> Hok Hj Hn.
    rewrite Hj, Hok, (get_property parsed "error" Hn). split.
    + intros str -> Ht. cbn.
      destruct str; [congruence | reflexivity].
    + intros Hf. unfold js_or. rewrite Hf. reflexivity.
  - intros r parsed -> Hok Hj Hn. rewrite Hj, Hok.
    destruct parsed; try discriminate; reflexivity.
  - intros [[e ->] | [r [-> [Hok | [e He]]]]].
    + reflexivity.
    + rewrite Hok. destruct (json r); [destruct (get a "error") |]; reflexivity.
    + rewrite He. reflexivity.
Qed.

(** A 404 with body [{error: "Not found"}] leaves "Not found" in the error
    slot and no dataset; with body [{}] the fallback; with body [null] the
    engine's TypeError text. *)
Lemma search_failure_witness :
  let refusal (parsed : jsval) :=
    fst (complete (answers {| ok := false; json := Ok parsed |})
           (handleSearch (typed "aapl") (typed "aapl"))) in
  ticker (typed "aapl") <> "" /\
  error (refusal (VObj [("error", VStr "Not found")])) = Msg "Not found" /\
  data (refusal (VObj [("error", VStr "Not found")])) = VNull /\
  error (refusal (VObj [])) = Msg "Failed to fetch data" /\
  error (refusal VNull) = CannotRead "error" VNull.
Proof.
  intros refusal.
  assert (H : ticker (typed "aapl") <> "") by discriminate.
  split; [exact H |].
  pose (reply := fun parsed => {| ok := false; json := Ok parsed |}).
  assert (Hc := fun parsed =>
            search_failure (answers (reply parsed)) (typed "aapl")
              (typed "aapl") H).
  split; [| split; [| split]].
  - destruct (Hc (VObj [("error", VStr "Not found")])) as (He & _ & _).
    refine (proj1 (He (reply _) _ eq_refl eq_refl eq_refl eq_refl)
              "Not found" eq_refl _).
    discriminate.
  - destruct (Hc (VObj [("error", VStr "Not found")])) as (_ & _ & Hd).
    apply Hd. right. exists (reply (VObj [("error", VStr "Not found")])).
    split; [reflexivity | now left].
  - destruct (Hc (VObj [])) as (He & _ & _).
    exact (proj2 (He (reply _) _ eq_refl eq_refl eq_refl eq_refl) eq_refl).
  - destruct (Hc VNull) as (_ & Hn & _).
    exact (Hn (reply _) _ eq_refl eq_refl eq_refl eq_refl).
Defined.

(** C5.  For each of the three kinds: without a dataset
    [handleAnalysisClick] ends at once, with no request and the state as it
    was; with one it suspends in [fetch] on a POST to /api/ followed by the
    kind, whose body is the JSON text of the whole dataset, in a state where
    the kind is recorded as selected; and when the response is 2xx and its
    body parses to a value with properties, the property named after the
    kind (analysis, prediction, risk_assessment) is the analysis text when
    the run ends. *)
Theorem handleAnalysisClick_request (c w : ViewState) (kind : string) :
  In kind ["analyze"; "predict"; "risk"] ->
  In (kind, result_field kind)
     [("analyze", "analysis"); ("predict", "prediction");
      ("risk", "risk_assessment")] /\
  (ToBoolean (data c) = false ->
   handleAnalysisClick c kind w = Return w (Ok tt)) /\
  (ToBoolean (data c) = true ->
   let req := {| http_method := POST; url := "/api/" ++ kind;
                 headers := [("Content-Type", "application/json")];
                 body := Some (JSON_stringify (data c)) |} in
   (exists k,
      handleAnalysisClick c kind w =
      Fetch {| ticker := ticker w; loading := loading w; error := error w;
               data := data w; analysisType := Some kind;
               analysisContent := VStr ""; loadingAnalysis := true |}
            req k) /\
   (forall net r parsed,
      net req = Fulfilled r -> ok r = true -> json r = Ok parsed ->
      nullish parsed = false ->
      exists v,
        get parsed (result_field kind) = Ok v /\
        complete net (handleAnalysisClick c kind w) =
        ({| ticker := ticker w; loading := loading w; error := error w;
            data := data w; analysisType := Some kind;
            analysisContent := v; loadingAnalysis := false |}, Ok tt))).
Proof.
  intros Hk. split; [| split].
  - simpl in Hk. decompose [or] Hk; subst; simpl; tauto.
  - intros H. unfold handleAnalysisClick. now rewrite H.
  - intros H req. split.
    + unfold handleAnalysisClick. rewrite H. cbn. eexists. reflexivity.
    + intros net r parsed Hn Hok Hj Hp.
      rewrite (handleAnalysisClick_complete net c w kind H).
      unfold analysis_outcome, request_outcome, post_json. fold req.
      rewrite Hn, Hj, Hok.
      destruct parsed; try discriminate; cbn; eexists; split; reflexivity.
Qed.

(** With a snapshot on screen, asking for the risk assessment posts the
    snapshot to /api/risk; the answer [{risk_assessment: "text"}] makes
    "text" the analysis text and risk the selected kind. *)
Lemma handleAnalysisClick_request_witness :
  let st := showing (snapshot [latest_quarter_sample]) (Msg "") in
  let net := answers {| ok := true;
                        json := Ok (VObj [("risk_assessment", VStr "text")]) |} in
  In "risk" ["analyze"; "predict"; "risk"] /\
  ToBoolean (data st) = true /\
  pending (handleAnalysisClick st "risk" st)
  = Some (analysing "risk" st, post_json "/api/risk" (data st)) /\
  analysisContent (fst (complete net (handleAnalysisClick st "risk" st)))
  = VStr "text" /\
  analysisType (fst (complete net (handleAnalysisClick st "risk" st)))
  = Some "risk".
Proof.
  intros st net.
  assert (Hin : In "risk" ["analyze"; "predict"; "risk"]) by (simpl; tauto).
  destruct (handleAnalysisClick_request st st "risk" Hin) as (_ & _ & H).
  destruct (H eq_refl) as [[k Hk] Hdone].
  destruct (Hdone net _ _ eq_refl eq_refl eq_refl eq_refl) as (v & Hv & Hc).
  injection Hv as <-.
  split; [exact Hin |]. split; [reflexivity |]. split.
  - rewrite Hk. reflexivity.
  - rewrite Hc. split; reflexivity.
Defined.

(** Once past their guard, the handlers are a [finally] block around the
    rest, with the flag's setter as cleanup. *)
Lemma handleSearch_finally (c w : ViewState) :
  ticker c <> "" ->
  exists r, handleSearch c w = finally_run r (set_state (with_loading false)).
Proof.
  intros H. unfold handleSearch.
  destruct (ticker c) as [| a t] eqn:E; [congruence |].
  eexists. reflexivity.
Qed.

Lemma handleAnalysisClick_finally (c w : ViewState) (type : string) :
  ToBoolean (data c) = true ->
  exists r,
    handleAnalysisClick c type w
    = finally_run r (set_state (with_loadingAnalysis false)).
Proof.
  intros H. unfold handleAnalysisClick. rewrite H.
  eexists. reflexivity.
Qed.

(** C6.  A search that issues its request ends with the loading flag
    cleared, and an analysis request that is issued ends with the analysis
    loading flag cleared: for every answer of the network (a rejected fetch,
    any status, a body whose parsing throws), both when nothing else touches
    the state meanwhile and when other handlers run at the suspension
    points. *)
Theorem loading_flags_cleared
  (net : Request -> settled) (c w : ViewState) (type : string) :
  (ticker c <> "" ->
   loading (fst (complete net (handleSearch c w))) = false /\
   forall wf res,
     finishes net (handleSearch c w) wf res -> loading wf = false) /\
  (ToBoolean (data c) = true ->
   loadingAnalysis (fst (complete net (handleAnalysisClick c type w))) = false /\
   forall wf res,
     finishes net (handleAnalysisClick c type w) wf res ->
     loadingAnalysis wf = false).
Proof.
  split; intros H.
  - assert (Hall : forall wf res,
              finishes net (handleSearch c w) wf res -> loading wf = false).
    { destruct (handleSearch_finally c w H) as [r ->]. intros wf res.
      apply (finishes_finally net (with_loading false)
               (fun s => loading s = false)).
      reflexivity. }
    split; [| exact Hall].
    eapply Hall, complete_finishes.
  - assert (Hall : forall wf res,
              finishes net (handleAnalysisClick c type w) wf res ->
              loadingAnalysis wf = false).
    { destruct (handleAnalysisClick_finally c w type H) as [r ->].
      intros wf res.
      apply (finishes_finally net (with_loadingAnalysis false)
               (fun s => loadingAnalysis s = false)).
      reflexivity. }
    split; [| exact Hall].
    eapply Hall, complete_finishes.
Qed.

(** A search whose response body does not parse, and an analysis request
    whose fetch is rejected, both end with their flag cleared. *)
Lemma loading_flags_cleared_witness :
  let broken := answers {| ok := true;
                           json := Throw (Thrown "SyntaxError"
                                            (Msg "Unexpected token")) |} in
  let offline := fun _ : Request =>
                   Rejected (Thrown "TypeError" (Msg "Failed to fetch")) in
  let st := showing (snapshot [latest_quarter_sample]) (Msg "") in
  ticker st <> "" /\ ToBoolean (data st) = true /\
  loading (fst (complete broken (handleSearch st st))) = false /\
  loadingAnalysis (fst (complete offline (handleAnalysisClick st "predict" st)))
  = false.
Proof.
  intros broken offline st.
  assert (H : ticker st <> "") by discriminate.
  split; [exact H |]. split; [reflexivity |]. split.
  - exact (proj1 (proj1 (loading_flags_cleared broken st st "predict") H)).
  - exact (proj1 (proj2 (loading_flags_cleared offline st st "predict")
                    eq_refl)).
Defined.

(** Every way an analysis request fails is a failure of [analysis_outcome]. *)
Lemma analysis_failures (type : string) (s : settled) :
  (exists e, s = Rejected e) \/
  (exists r, s = Fulfilled r /\
             (ok r = false \/ (exists e, json r = Throw e) \/
              (exists parsed, json r = Ok parsed /\ nullish parsed = true))) ->
  exists m, analysis_outcome type s = inl m.
Proof.
  unfold analysis_outcome, request_outcome.
  intros [[e ->] | [r [-> [Hok | [[e He] | [parsed [He Hn]]]]]]].
  - eexists; reflexivity.
  - rewrite Hok. destruct (json r) as [parsed | e]; [| eexists; reflexivity].
    destruct (get parsed "error"); eexists; reflexivity.
  - rewrite He. eexists; reflexivity.
  - rewrite He. destruct parsed; try discriminate;
      destruct (ok r); eexists; reflexivity.
Qed.

(** C9, as stated, fails: a failed analysis request also changes the
    selected kind.  From a state with no kind selected, a request for the
    risk assessment that the server answers with a non-2xx status ends with
    risk selected. *)
Lemma failed_analysis_changes_selected_kind :
  let st := showing (snapshot [latest_quarter_sample]) (Msg "") in
  let net := answers {| ok := false;
                        json := Ok (VObj [("error", VStr "Server error")]) |} in
  analysisType st = None /\
  analysisType (fst (complete net (handleAnalysisClick st "risk" st)))
  = Some "risk".
Proof. split; reflexivity. Qed.

(** C9, amended.  After an analysis request that fails (the fetch is
    rejected, the status is not 2xx, the body does not parse, or it parses
    to null), the dataset is the one from before the request, and so are
    the ticker text and the search loading flag; what changed is at most
    the error slot (now the failure's message), the selected kind (the one
    asked for), the analysis text (empty) and the analysis loading flag
    (cleared). *)
Theorem failed_analysis_frame
  (net : Request -> settled) (c w : ViewState) (type : string) :
  ToBoolean (data c) = true ->
  let s := net (post_json ("/api/" ++ type) (data c)) in
  (exists e, s = Rejected e) \/
  (exists r, s = Fulfilled r /\
             (ok r = false \/ (exists e, json r = Throw e) \/
              (exists parsed, json r = Ok parsed /\ nullish parsed = true))) ->
  exists m : message,
    complete net (handleAnalysisClick c type w) =
    ({| ticker := ticker w; loading := loading w; error := m;
        data := data w; analysisType := Some type;
        analysisContent := VStr ""; loadingAnalysis := false |}, Ok tt).
Proof.
  intros H s Hs.
  destruct (analysis_failures type s Hs) as [m Hm]. exists m.
  rewrite (handleAnalysisClick_complete net c w type H). fold s.
  rewrite Hm. reflexivity.
Qed.

(** A server error on a risk request: the snapshot stays, the message
    arrives in the error slot. *)
Lemma failed_analysis_frame_witness :
  let st := showing (snapshot [latest_quarter_sample]) (Msg "") in
  let net := answers {| ok := false;
                        json := Ok (VObj [("error", VStr "Server error")]) |} in
  let wf := fst (complete net (handleAnalysisClick st "risk" st)) in
  ToBoolean (data st) = true /\
  data wf = snapshot [latest_quarter_sample] /\
  ticker wf = "aapl" /\ loading wf = false /\
  analysisContent wf = VStr "" /\ loadingAnalysis wf = false.
Proof.
  intros st net wf. split; [reflexivity |].
  destruct (failed_analysis_frame net st st "risk" eq_refl) as [m Hm].
  - right. eexists. split; [reflexivity | now left].
  - subst wf. rewrite Hm. repeat split.
Defined.

(** C10.  [handleAnalysisClick] leaves the error slot alone both when it
    issues its request and when the request succeeds, so the message of a
    failed analysis request is still in the slot after a later request has
    succeeded.  [handleSearch] does clear the slot when it issues its
    request, and whatever the answer it ends with the selected kind it
    started with.  Neither handler is idle in this: an analysis request
    with a dataset does get issued, with the slot as it was, and a search
    with a non-empty ticker text does get issued, with the slot empty, and
    ends with the slot empty when it succeeds. *)
Theorem error_slot_and_selected_kind
  (net : Request -> settled) (c w : ViewState) (type : string) :
  (forall wq req,
     pending (handleAnalysisClick c type w) = Some (wq, req) ->
     error wq = error w) /\
  (ToBoolean (data c) = true ->
   forall r parsed,
     net (post_json ("/api/" ++ type) (data c)) = Fulfilled r ->
     ok r = true -> json r = Ok parsed -> nullish parsed = false ->
     error (fst (complete net (handleAnalysisClick c type w))) = error w) /\
  (ToBoolean (data w) = true ->
   forall (failing : Request -> settled) (earlier : string) (m : message)
          r parsed,
     analysis_outcome earlier
       (failing (post_json ("/api/" ++ earlier) (data w))) = inl m ->
     let w1 := fst (complete failing (handleAnalysisClick w earlier w)) in
     net (post_json ("/api/" ++ type) (data w1)) = Fulfilled r ->
     ok r = true -> json r = Ok parsed -> nullish parsed = false ->
     error w1 = m /\
     error (fst (complete net (handleAnalysisClick w1 type w1))) = m) /\
  (forall wq req,
     pending (handleSearch c w) = Some (wq, req) ->
     error wq = Msg "" /\ analysisType wq = analysisType w) /\
  analysisType (fst (complete net (handleSearch c w))) = analysisType w /\
  (ToBoolean (data c) = true ->
   exists wq req,
     pending (handleAnalysisClick c type w) = Some (wq, req) /\
     error wq = error w) /\
  (ticker c <> "" ->
   exists wq req,
     pending (handleSearch c w) = Some (wq, req) /\
     error wq = Msg "" /\ analysisType wq = analysisType w) /\
  (ticker c <> "" ->
   forall r parsed,
     net (search_request (ticker c)) = Fulfilled r ->
     ok r = true -> json r = Ok parsed ->
     error (fst (complete net (handleSearch c w))) = Msg "").
Proof.
  assert (Hsuccess : forall c' w' r parsed,
            ToBoolean (data c') = true ->
            net (post_json ("/api/" ++ type) (data c')) = Fulfilled r ->
            ok r = true -> json r = Ok parsed -> nullish parsed = false ->
            error (fst (complete net (handleAnalysisClick c' type w')))
            = error w').
  { intros c' w' r parsed H Hn Hok Hj Hp.
    rewrite (handleAnalysisClick_complete net c' w' type H).
    unfold analysis_outcome, request_outcome. rewrite Hn, Hj, Hok.
    destruct parsed; try discriminate; reflexivity. }
  repeat apply conj.
  - unfold handleAnalysisClick.
    destruct (ToBoolean (data c)); cbn; intros wq req H;
      [injection H as <- _; reflexivity | discriminate].
  - intros H r parsed. now apply Hsuccess.
  - intros H failing earlier m r parsed Hm w1 Hn Hok Hj Hp.
    assert (Hw1 : w1 = with_loadingAnalysis false
                         (with_error m (analysing earlier w))).
    { subst w1.
      rewrite (handleAnalysisClick_complete failing w w earlier H), Hm.
      reflexivity. }
    split; [now rewrite Hw1 |].
    rewrite (Hsuccess w1 w1 r parsed); try assumption.
    + now rewrite Hw1.
    + now rewrite Hw1.
  - unfold handleSearch.
    destruct (ticker c) as [| a t]; cbn; intros wq req H;
      [discriminate | injection H as <- _; split; reflexivity].
  - destruct (ticker c) as [| a t] eqn:E.
    + unfold handleSearch. rewrite E. reflexivity.
    + rewrite (handleSearch_complete net c w) by (rewrite E; discriminate).
      destruct (search_outcome _); reflexivity.
  - intros H. unfold handleAnalysisClick. rewrite H. cbn.
    do 2 eexists. split; reflexivity.
  - intros H. unfold handleSearch.
    destruct (ticker c) as [| a t]; [congruence |]. cbn -[search_request].
    do 2 eexists. repeat split.
  - intros H r parsed Hn Hok Hj.
    rewrite (handleSearch_complete net c w H).
    unfold search_outcome, request_outcome. now rewrite Hn, Hj, Hok.
Qed.

(** A failed prediction request followed by a successful analysis: the
    failure's message is still there.  A search submitted then has the
    slot empty while it waits and when it has succeeded, and keeps the
    selected kind. *)
Lemma error_slot_and_selected_kind_witness :
  let st := showing (snapshot [latest_quarter_sample]) (Msg "") in
  let failing := answers {| ok := false;
                            json := Ok (VObj [("error", VStr "Server error")]) |} in
  let net := answers {| ok := true;
                        json := Ok (VObj [("analysis", VStr "Sound.")]) |} in
  let w1 := fst (complete failing (handleAnalysisClick st "predict" st)) in
  let w2 := fst (complete net (handleAnalysisClick w1 "analyze" w1)) in
  ToBoolean (data st) = true /\ ticker w2 <> "" /\
  error w1 = Msg "Server error" /\
  error w2 = Msg "Server error" /\
  analysisContent w2 = VStr "Sound." /\
  analysisType (fst (complete net (handleSearch w2 w2))) = Some "analyze" /\
  (exists wq req,
     pending (handleSearch w2 w2) = Some (wq, req) /\ error wq = Msg "") /\
  error (fst (complete net (handleSearch w2 w2))) = Msg "".
Proof.
  intros st failing net w1 w2.
  assert (Ht : ticker w2 <> "") by discriminate.
  destruct (error_slot_and_selected_kind net st st "analyze")
    as (_ & _ & Hlater & _).
  destruct (Hlater eq_refl failing "predict" (Msg "Server error")
              _ _ eq_refl eq_refl eq_refl eq_refl eq_refl) as [H1 H2].
  destruct (error_slot_and_selected_kind net w2 w2 "analyze")
    as (_ & _ & _ & _ & Hkind & _ & Hissue & Hdone).
  destruct (Hissue Ht) as (wq & req & Hp & He & _).
  split; [reflexivity |]. split; [exact Ht |]. split; [exact H1 |].
  split; [exact H2 |]. split; [reflexivity |].
  split; [rewrite Hkind; reflexivity |].
  split; [exists wq, req; split; assumption |].
  exact (Hdone Ht {| ok := true;
                     json := Ok (VObj [("analysis", VStr "Sound.")]) |}
           _ eq_refl eq_refl eq_refl).
Defined.

(** ** The chart adapter *)

(** The adapter on a list of quarterly records is [map tuple_of]. *)
Lemma map_result_chart_point (items : list jsval) :
  forallb quarterly_record items = true ->
  map_result chart_point items = Ok (map tuple_of items).
Proof.
  induction items as [| q rest IH]; simpl; intros H; [reflexivity |].
  apply andb_prop in H as [Hq Hrest].
  rewrite (IH Hrest).
  destruct q as [| | | | | | fields]; try discriminate.
  unfold chart_point, tuple_of, property. simpl in *.
  destruct (lookup "metrics" fields); try discriminate. reflexivity.
Qed.

(** C8.  On a sequence of N quarterly records the chart adapter returns N
    tuples, the i-th built from the i-th record: its date and its Revenue,
    NetIncome and ProfitMargin as they are in the record, [undefined] or
    [null] included. *)
Theorem chart_adapter_keeps_order_and_count (items : list jsval) :
  forallb quarterly_record items = true ->
  exists points : list ChartPoint,
    chart_adapter (VArr items) = Ok points /\
    length points = length items /\
    forall i q,
      nth_error items i = Some q ->
      nth_error points i =
      Some {| point_date := property q "date";
              revenue := property (property q "metrics") "Revenue";
              netIncome := property (property q "metrics") "NetIncome";
              profitMargin := property (property q "metrics") "ProfitMargin" |}.
Proof.
  intros H. exists (map tuple_of items).
  split; [exact (map_result_chart_point items H) |].
  split; [apply length_map |].
  intros i q Hq. now rewrite nth_error_map, Hq.
Qed.

(** Two quarters, the earlier one without a net income: two tuples in the
    same order, the missing value still missing. *)
Lemma chart_adapter_keeps_order_and_count_witness :
  let partial := VObj [("date", VStr "2023-12-31");
                       ("metrics", VObj [("Revenue", VNum 100);
                                         ("ProfitMargin", VNull)])] in
  forallb quarterly_record [latest_quarter_sample; partial] = true /\
  chart_adapter (VArr [latest_quarter_sample; partial]) =
  Ok [{| point_date := VStr "2024-03-31"; revenue := VNum 120;
         netIncome := VNum 30; profitMargin := VNum 25 |};
      {| point_date := VStr "2023-12-31"; revenue := VNum 100;
         netIncome := VUndefined; profitMargin := VNull |}].
Proof.
  intros partial. split; [reflexivity |].
  destruct (chart_adapter_keeps_order_and_count
              [latest_quarter_sample; partial] eq_refl)
    as (points & Hrun & Hlen & Hnth).
  rewrite Hrun. f_equal.
  destruct points as [| p0 [| p1 [| p2 rest]]]; try discriminate.
  pose proof (Hnth 0 _ eq_refl) as H0. pose proof (Hnth 1 _ eq_refl) as H1.
  injection H0 as ->. injection H1 as ->. reflexivity.
Defined.

(** ** The dashboard *)

(** With fewer than two quarterly records the "Financial Data Period" block
    (lines 182-194) throws: it reads [.date] of [data.quarterly_data[0]] and
    of [data.quarterly_data[1]] with no guard, and one of them is
    [undefined]. *)
Lemma period_block_needs_two_quarters
  (recharts : bool) (dataset : jsval) (items : list jsval) (h : Header) :
  ToBoolean dataset = true ->
  renderHeader dataset = Val h ->
  get dataset "quarterly_data" = Ok (VArr items) ->
  items = [] \/
  (exists q, items = [q] /\ quarterly_record q = true /\
             primitive (property q "date") = true) ->
  renderDashboard recharts dataset
  = Exn (TypeError (CannotRead "date" VUndefined)).
Proof.
  intros Hd Hh Hq Hitems. unfold renderDashboard.
  rewrite Hd, Hh, bind_Val. unfold quarter_date, quarter. rewrite Hq.
  destruct Hitems as [-> | (q & -> & Hrec & Hprim)]; [reflexivity |].
  destruct q as [| | | | | | fields]; try discriminate.
  cbn in Hprim |- *.
  destruct (lookup "date" fields); try discriminate; reflexivity.
Qed.

(** C1 fails on the code.  A search that succeeds with a snapshot of one
    quarterly record stores it, and rendering the dashboard for it throws
    a TypeError in the period block, as it does for a snapshot with no
    record at all; the four metric cards just below (lines 197-222), which
    guard index 0 with [&&] and index 1 with [?.], render for both, and
    with two records the whole dashboard renders. *)
Theorem dashboard_throws_below_two_quarters :
  let one := snapshot [latest_quarter_sample] in
  let fetched := fst (complete (answers {| ok := true; json := Ok one |})
                        (handleSearch (typed "aapl") (typed "aapl"))) in
  data fetched = one /\
  renderDashboard true (data fetched)
  = Exn (TypeError (CannotRead "date" VUndefined)) /\
  renderDashboard true (snapshot [])
  = Exn (TypeError (CannotRead "date" VUndefined)) /\
  (exists c1 c2 c3 c4, renderCards one = Val [c1; c2; c3; c4]) /\
  renderCards (snapshot []) = Val [] /\
  (exists d,
     renderDashboard true
       (snapshot [latest_quarter_sample; previous_quarter_sample])
     = Val (Some d)).
Proof.
  intros one fetched. split; [reflexivity |].
  split; [vm_compute; reflexivity |].
  split; [vm_compute; reflexivity |].
  split; [do 4 eexists; vm_compute; reflexivity |].
  split; [reflexivity |].
  eexists; vm_compute; reflexivity.
Qed.

(** * Further properties of the handlers *)

(** A search answered with a 2xx status and a body that parses replaces the
    dataset by the parsed body as a whole, and ends with no error, the
    loading flag cleared and the analysis text empty; the ticker text, the
    selected kind and the analysis loading flag are untouched. *)
Theorem search_success
  (net : Request -> settled) (c w : ViewState) (r : Response) (parsed : jsval) :
  ticker c <> "" ->
  net (search_request (ticker c)) = Fulfilled r ->
  ok r = true -> json r = Ok parsed ->
  complete net (handleSearch c w) =
  ({| ticker := ticker w; loading := false; error := Msg "";
      data := parsed; analysisType := analysisType w;
      analysisContent := VStr "";
      loadingAnalysis := loadingAnalysis w |}, Ok tt).
Proof.
  intros H Hn Hok Hj. rewrite (handleSearch_complete net c w H).
  unfold search_outcome, request_outcome. now rewrite Hn, Hj, Hok.
Qed.

Lemma search_success_witness :
  let one := snapshot [latest_quarter_sample] in
  let st := showing one (Msg "stale") in
  ticker st <> "" /\
  complete (answers {| ok := true; json := Ok one |}) (handleSearch st st) =
  ({| ticker := "aapl"; loading := false; error := Msg ""; data := one;
      analysisType := None; analysisContent := VStr "";
      loadingAnalysis := false |}, Ok tt).
Proof.
  intros one st.
  assert (H : ticker st <> "") by discriminate.
  split; [exact H |].
  exact (search_success (answers {| ok := true; json := Ok one |}) st st
           {| ok := true; json := Ok one |} one H eq_refl eq_refl eq_refl).
Defined.

(** When the fetch is rejected, or the body of the response cannot be
    parsed (whatever the status), the error slot receives the message of
    that very exception, not the handler's fallback text.  This holds for
    both handlers. *)
Theorem exceptions_surface_verbatim
  (net : Request -> settled) (c w : ViewState) (type : string) (e : exn) :
  (ticker c <> "" ->
   let s := net (search_request (ticker c)) in
   s = Rejected e \/ (exists r, s = Fulfilled r /\ json r = Throw e) ->
   error (fst (complete net (handleSearch c w))) = exn_message e) /\
  (ToBoolean (data c) = true ->
   let s := net (post_json ("/api/" ++ type) (data c)) in
   s = Rejected e \/ (exists r, s = Fulfilled r /\ json r = Throw e) ->
   error (fst (complete net (handleAnalysisClick c type w))) = exn_message e).
Proof.
  split; intros H s Hs.
  - rewrite (handleSearch_complete net c w H). fold s.
    unfold search_outcome, request_outcome.
    destruct Hs as [-> | (r & -> & ->)]; reflexivity.
  - rewrite (handleAnalysisClick_complete net c w type H). fold s.
    unfold analysis_outcome, request_outcome.
    destruct Hs as [-> | (r & -> & ->)]; reflexivity.
Qed.

Lemma exceptions_surface_verbatim_witness :
  let offline := fun _ : Request =>
                   Rejected (Thrown "TypeError" (Msg "Failed to fetch")) in
  let st := showing (snapshot [latest_quarter_sample]) (Msg "") in
  ticker st <> "" /\ ToBoolean (data st) = true /\
  error (fst (complete offline (handleSearch st st))) = Msg "Failed to fetch" /\
  error (fst (complete offline (handleAnalysisClick st "risk" st)))
  = Msg "Failed to fetch".
Proof.
  intros offline st.
  assert (H : ticker st <> "") by discriminate.
  destruct (exceptions_surface_verbatim offline st st "risk"
              (Thrown "TypeError" (Msg "Failed to fetch"))) as [Hs Ha].
  split; [exact H |]. split; [reflexivity |]. split.
  - apply (Hs H). now left.
  - apply (Ha eq_refl). now left.
Defined.

(** An analysis request answered with a non-2xx status whose body parses
    to a JSON value other than null surfaces the body's error field when it
    is a non-empty string, and "Failed to generate analysis" when the field
    is absent or otherwise falsy.  When the body parses to null, the slot
    receives the text of the TypeError raised by reading its error field. *)
Theorem analysis_failure_message
  (net : Request -> settled) (c w : ViewState) (type : string)
  (r : Response) (parsed : jsval) :
  ToBoolean (data c) = true ->
  net (post_json ("/api/" ++ type) (data c)) = Fulfilled r ->
  ok r = false -> json r = Ok parsed ->
  let wf := fst (complete net (handleAnalysisClick c type w)) in
  (nullish parsed = false ->
   (forall str, property parsed "error" = VStr str -> str <> "" ->
                error wf = Msg str) /\
   (ToBoolean (property parsed "error") = false ->
    error wf = Msg "Failed to generate analysis")) /\
  (nullish parsed = true -> error wf = CannotRead "error" parsed).
Proof.
  intros H Hn Hok Hj wf. subst wf.
  rewrite (handleAnalysisClick_complete net c w type H).
  unfold analysis_outcome, request_outcome. rewrite Hn, Hj, Hok. split.
  - intros Hp. rewrite (get_property parsed "error" Hp). split.
    + intros str -> Hs. cbn. destruct str; [congruence | reflexivity].
    + intros Hf. unfold js_or. rewrite Hf. reflexivity.
  - intros Hp. destruct parsed; try discriminate; reflexivity.
Qed.

Lemma analysis_failure_message_witness :
  let st := showing (snapshot [latest_quarter_sample]) (Msg "") in
  let refusal (parsed : jsval) :=
    fst (complete (answers {| ok := false; json := Ok parsed |})
           (handleAnalysisClick st "predict" st)) in
  ToBoolean (data st) = true /\
  error (refusal (VObj [])) = Msg "Failed to generate analysis" /\
  error (refusal (VObj [("error", VStr "Quota exceeded")]))
  = Msg "Quota exceeded" /\
  error (refusal VNull) = CannotRead "error" VNull.
Proof.
  intros st refusal. split; [reflexivity |].
  assert (Hc := fun parsed =>
            analysis_failure_message
              (answers {| ok := false; json := Ok parsed |}) st st "predict"
              {| ok := false; json := Ok parsed |} parsed
              eq_refl eq_refl eq_refl eq_refl).
  split; [| split].
  - exact (proj2 (proj1 (Hc (VObj [])) eq_refl) eq_refl).
  - refine (proj1 (proj1 (Hc (VObj [("error", VStr "Quota exceeded")]))
                     eq_refl) "Quota exceeded" eq_refl _).
    discriminate.
  - exact (proj2 (Hc VNull) eq_refl).
Defined.

(** Each call of a handler sends one request or none, whatever the answer:
    a search sends its GET exactly when the ticker text is not empty, an
    analysis its POST exactly when a dataset is present, and a failure is
    never followed by a second attempt. *)
Theorem one_request_per_call
  (net : Request -> settled) (c w : ViewState) (type : string) :
  requests net (handleSearch c w)
  = (if ToBoolean (VStr (ticker c)) then [search_request (ticker c)] else []) /\
  requests net (handleAnalysisClick c type w)
  = (if ToBoolean (data c)
     then [post_json ("/api/" ++ type) (data c)] else []).
Proof.
  split.
  - unfold handleSearch.
    destruct (ticker c) as [| a t]; [reflexivity |]. cbn.
    destruct (net _) as [[okb [parsed | e]] | e]; cbn;
      [destruct okb; cbn; [| destruct (get parsed "error"); cbn]
      | destruct okb; cbn |];
      reflexivity.
  - unfold handleAnalysisClick.
    destruct (ToBoolean (data c)); [| reflexivity]. cbn.
    destruct (net _) as [[okb [parsed | e]] | e]; cbn;
      [destruct okb; cbn;
         [destruct (get parsed (result_field type))
         | destruct (get parsed "error")]; cbn
      | destruct okb; cbn |];
      reflexivity.
Qed.







(** While a search is waiting for its response the page consists of the
    form alone, its button disabled and reading "Searching...": the error
    banner and the whole dashboard are gone, whatever was shown before. *)
Theorem page_while_searching
  (recharts : bool) (w wq : ViewState) (req : Request) :
  pending (handleSearch w w) = Some (wq, req) ->
  render recharts wq =
  Val {| page_form := {| input_value := ticker w; submit_disabled := true;
                         submit_label := "Searching..." |};
         page_banner := None;
         page_panel := Residue VNull |}.
Proof.
  unfold handleSearch.
  destruct (ticker w) as [| a t] eqn:E; cbn; intros H; [discriminate |].
  injection H as <- _. unfold render, renderForm. cbn. now rewrite E.
Qed.

Lemma page_while_searching_witness :
  let st := showing (snapshot [latest_quarter_sample]) (Msg "stale") in
  exists wq req,
    pending (handleSearch st st) = Some (wq, req) /\
    render true wq =
    Val {| page_form := {| input_value := "aapl"; submit_disabled := true;
                           submit_label := "Searching..." |};
           page_banner := None;
           page_panel := Residue VNull |}.
Proof.
  intros st. do 2 eexists. split; [reflexivity |].
  exact (page_while_searching true st _ _ eq_refl).
Defined.

(** After a search that the server refuses with a non-empty error string,
    the page shows that string in the banner and no dashboard, and the
    form is usable again. *)
Theorem page_after_refused_search
  (recharts : bool) (net : Request -> settled) (w : ViewState)
  (r : Response) (parsed : jsval) (str : string) :
  ticker w <> "" ->
  net (search_request (ticker w)) = Fulfilled r ->
  ok r = false -> json r = Ok parsed ->
  get parsed "error" = Ok (VStr str) -> str <> "" ->
  render recharts (fst (complete net (handleSearch w w))) =
  Val {| page_form := {| input_value := ticker w; submit_disabled := false;
                         submit_label := "Search" |};
         page_banner := Some (Msg str);
         page_panel := Residue VNull |}.
Proof.
  intros H Hn Hok Hj He Hs. rewrite (handleSearch_complete net w w H).
  unfold search_outcome, request_outcome. rewrite Hn, Hj, Hok, He.
  destruct str as [| a str]; [congruence |].
  destruct (ticker w) as [| b t] eqn:E; [congruence |].
  unfold render, renderForm, renderBanner. cbn. now rewrite E.
Qed.

Lemma page_after_refused_search_witness :
  let net := answers {| ok := false;
                        json := Ok (VObj [("error", VStr "Not found")]) |} in
  ticker (typed "zzzz") <> "" /\
  render false (fst (complete net (handleSearch (typed "zzzz") (typed "zzzz"))))
  = Val {| page_form := {| input_value := "zzzz"; submit_disabled := false;
                           submit_label := "Search" |};
           page_banner := Some (Msg "Not found");
           page_panel := Residue VNull |}.
Proof.
  intros net.
  assert (H : ticker (typed "zzzz") <> "") by discriminate.
  split; [exact H |].
  refine (page_after_refused_search false net (typed "zzzz")
            {| ok := false; json := Ok (VObj [("error", VStr "Not found")]) |}
            _ "Not found" H eq_refl eq_refl eq_refl eq_refl _).
  discriminate.
Defined.

(** While an analysis request is waiting, the three buttons are disabled,
    the spinner is on and no analysis is displayed; the search form is as
    it was, so a search can still be submitted. *)
Theorem controls_while_analysing
  (w wq : ViewState) (type : string) (req : Request) :
  pending (handleAnalysisClick w type w) = Some (wq, req) ->
  Forall (fun b => button_disabled b = true) (analysisButtons wq) /\
  loadingAnalysis wq = true /\
  renderAnalysis wq = Ok None /\
  renderForm wq = renderForm w.
Proof.
  unfold handleAnalysisClick.
  destruct (ToBoolean (data w)); cbn; intros H; [| discriminate].
  injection H as <- _. repeat split. repeat constructor.
Qed.

Lemma controls_while_analysing_witness :
  let st := showing (snapshot [latest_quarter_sample]) (Msg "") in
  exists wq req,
    pending (handleAnalysisClick st "analyze" st) = Some (wq, req) /\
    map button_disabled (analysisButtons wq) = [true; true; true] /\
    submit_disabled (renderForm wq) = false.
Proof.
  intros st. do 2 eexists. split; [reflexivity |].
  destruct (controls_while_analysing st _ "analyze" _ eq_refl)
    as (_ & _ & _ & Hform).
  split; [reflexivity |]. rewrite Hform. reflexivity.
Defined.

(** The buttons reach the three analysis endpoints and no other: clicking
    any button of a page that shows a dataset posts that dataset to /api/
    followed by the button's kind, and the kinds are analyze, predict and
    risk, in this order. *)
Theorem buttons_post_to_their_endpoint (st : ViewState) :
  map button_kind (analysisButtons st) = ["analyze"; "predict"; "risk"] /\
  (ToBoolean (data st) = true ->
   forall b, In b (analysisButtons st) ->
     exists wq,
       pending (button_click b st)
       = Some (wq, {| http_method := POST;
                      url := "/api/" ++ button_kind b;
                      headers := [("Content-Type", "application/json")];
                      body := Some (JSON_stringify (data st)) |}) /\
       analysisType wq = Some (button_kind b)).
Proof.
  split; [reflexivity |]. intros H b Hb.
  unfold analysisButtons in Hb. apply in_map_iff in Hb as (type & <- & _).
  cbn [button_click button_kind analysisButton].
  unfold handleAnalysisClick. rewrite H. cbn. eexists. split; reflexivity.
Qed.

Lemma buttons_post_to_their_endpoint_witness :
  let st := showing (snapshot [latest_quarter_sample]) (Msg "") in
  ToBoolean (data st) = true /\
  In (analysisButton st "risk") (analysisButtons st) /\
  exists wq,
    pending (handleAnalysisClick st "risk" st)
    = Some (wq, {| http_method := POST; url := "/api/risk";
                   headers := [("Content-Type", "application/json")];
                   body := Some (JSON_stringify (data st)) |}) /\
    analysisType wq = Some "risk".
Proof.
  intros st.
  assert (Hin : In (analysisButton st "risk") (analysisButtons st))
    by (simpl; tauto).
  split; [reflexivity |]. split; [exact Hin |].
  exact (proj2 (buttons_post_to_their_endpoint st) eq_refl _ Hin).
Defined.

(** A search can overtake an analysis request.  If, while the analysis of
    one dataset is waiting for its answer, a search is submitted and
    succeeds with another dataset, the answer that arrives afterwards is
    stored all the same: the page ends up showing the new dataset together
    with the analysis text computed for the old one, whose JSON text was the
    body of the request. *)
Theorem analysis_outlives_new_search
  (net : Request -> settled) (w wq : ViewState) (type : string)
  (req : Request) (ra rs : Response) (parsed v fresh : jsval) :
  ticker w <> "" ->
  pending (handleAnalysisClick w type w) = Some (wq, req) ->
  net req = Fulfilled ra -> ok ra = true -> json ra = Ok parsed ->
  get parsed (result_field type) = Ok v ->
  net (search_request (ticker wq)) = Fulfilled rs ->
  ok rs = true -> json rs = Ok fresh ->
  let w2 := fst (complete net (handleSearch wq wq)) in
  let wf := fst (resume net (handleAnalysisClick w type w) w2) in
  body req = Some (JSON_stringify (data w)) /\
  data w2 = fresh /\ analysisContent w2 = VStr "" /\
  data wf = fresh /\ analysisContent wf = v /\
  analysisType wf = Some type /\ loadingAnalysis wf = false.
Proof.
  intros Ht Hp Hn Hok Hj Hv Hs Hoks Hjs.
  assert (Hw : ToBoolean (data w) = true).
  { unfold handleAnalysisClick in Hp.
    destruct (ToBoolean (data w)); [reflexivity | discriminate]. }
  assert (Hq : wq = analysing type w /\
               req = post_json ("/api/" ++ type) (data w)).
  { unfold handleAnalysisClick in Hp. rewrite Hw in Hp. cbn in Hp.
    injection Hp as <- <-. split; reflexivity. }
  destruct Hq as [-> ->].
  assert (H2 : fst (complete net (handleSearch (analysing type w)
                                    (analysing type w)))
               = with_loading false
                   (with_data fresh (searching (analysing type w)))).
  { rewrite (handleSearch_complete net (analysing type w)
               (analysing type w) Ht).
    unfold search_outcome, request_outcome. now rewrite Hs, Hjs, Hoks. }
  cbv zeta. rewrite H2.
  unfold handleAnalysisClick. rewrite Hw. cbn.
  cbn in Hn. rewrite Hn. cbn. rewrite Hok. cbn. rewrite Hj, Hv.
  repeat split.
Qed.

Lemma analysis_outlives_new_search_witness :
  let old := snapshot [latest_quarter_sample] in
  let fresh := snapshot [previous_quarter_sample] in
  let st := showing old (Msg "") in
  let net := fun q : Request =>
    match http_method q with
    | GET => Fulfilled {| ok := true; json := Ok fresh |}
    | POST => Fulfilled {| ok := true;
                           json := Ok (VObj [("analysis", VStr "About old")]) |}
    end in
  let wq := analysing "analyze" st in
  let w2 := fst (complete net (handleSearch wq wq)) in
  let wf := fst (resume net (handleAnalysisClick st "analyze" st) w2) in
  ticker st <> "" /\ data wf = fresh /\ analysisContent wf = VStr "About old".
Proof.
  intros old fresh st net wq w2 wf.
  assert (H : ticker st <> "") by discriminate.
  split; [exact H |].
  destruct (analysis_outlives_new_search net st wq "analyze"
              (post_json "/api/analyze" old)
              {| ok := true;
                 json := Ok (VObj [("analysis", VStr "About old")]) |}
              {| ok := true; json := Ok fresh |}
              (VObj [("analysis", VStr "About old")]) (VStr "About old") fresh
              H eq_refl eq_refl eq_refl eq_refl eq_refl eq_refl eq_refl eq_refl)
    as (_ & _ & _ & Hd & Hc & _).
  split; [exact Hd | exact Hc].
Defined.

(** A 2xx analysis response that lacks the field of its kind stores
    [undefined]: no error is raised, the error slot is as before, and the
    page shows no analysis. *)
Theorem analysis_without_its_field
  (net : Request -> settled) (c w : ViewState) (type : string)
  (r : Response) (fields : list (string * jsval)) :
  ToBoolean (data c) = true ->
  net (post_json ("/api/" ++ type) (data c)) = Fulfilled r ->
  ok r = true -> json r = Ok (VObj fields) ->
  lookup (result_field type) fields = VUndefined ->
  let wf := fst (complete net (handleAnalysisClick c type w)) in
  analysisContent wf = VUndefined /\ error wf = error w /\
  renderAnalysis wf = Ok None.
Proof.
  intros H Hn Hok Hj Hl wf. subst wf.
  rewrite (handleAnalysisClick_complete net c w type H).
  unfold analysis_outcome, request_outcome. rewrite Hn, Hj, Hok.
  cbn. rewrite Hl. repeat split.
Qed.

Lemma analysis_without_its_field_witness :
  let st := showing (snapshot [latest_quarter_sample]) (Msg "") in
  let net := answers {| ok := true;
                        json := Ok (VObj [("analysis", VStr "text")]) |} in
  ToBoolean (data st) = true /\
  renderAnalysis (fst (complete net (handleAnalysisClick st "predict" st)))
  = Ok None.
Proof.
  intros st net. split; [reflexivity |].
  exact (proj2 (proj2 (analysis_without_its_field net st st "predict"
                         {| ok := true;
                            json := Ok (VObj [("analysis", VStr "text")]) |}
                         [("analysis", VStr "text")]
                         eq_refl eq_refl eq_refl eq_refl eq_refl))).
Defined.

(** A 2xx analysis response whose field is truthy but not a string (a
    number, [true], an array, an object) is stored as it is, and the next
    render throws a TypeError at [analysisContent.split] once the banner
    and the dashboard have rendered. *)
Theorem analysis_not_a_string_breaks_render
  (recharts : bool) (net : Request -> settled) (w : ViewState) (type : string)
  (r : Response) (parsed v : jsval) (banner : option message) (d : Dashboard) :
  net (post_json ("/api/" ++ type) (data w)) = Fulfilled r ->
  ok r = true -> json r = Ok parsed ->
  get parsed (result_field type) = Ok v ->
  ToBoolean v = true -> (forall s, v <> VStr s) ->
  renderBanner w = Val banner ->
  renderDashboard recharts (data w) = Val (Some d) ->
  let wf := fst (complete net (handleAnalysisClick w type w)) in
  analysisContent wf = v /\
  render recharts wf = Exn (TypeError (NotAFunction "split" v)).
Proof.
  intros Hn Hok Hj Hv Ht Hs Hb Hd wf.
  assert (H : ToBoolean (data w) = true).
  { unfold renderDashboard in Hd. destruct (ToBoolean (data w));
      [reflexivity | discriminate]. }
  subst wf. rewrite (handleAnalysisClick_complete net w w type H).
  unfold analysis_outcome, request_outcome. rewrite Hn, Hj, Hok, Hv.
  split; [reflexivity |].
  unfold render, renderBanner in *. cbn [fst error data with_loadingAnalysis
    with_analysisContent analysing] in *.
  rewrite Hb, bind_Val, Hd, bind_Val.
  unfold renderAnalysis. cbn [analysisContent with_loadingAnalysis
    with_analysisContent]. rewrite Ht.
  destruct v; try reflexivity. now destruct (Hs s).
Qed.

Lemma analysis_not_a_string_breaks_render_witness :
  let st := showing (snapshot [latest_quarter_sample; previous_quarter_sample])
              (Msg "") in
  let net := answers {| ok := true;
                        json := Ok (VObj [("analysis", VNum 42)]) |} in
  ToBoolean (VNum 42) = true /\
  render true (fst (complete net (handleAnalysisClick st "analyze" st)))
  = Exn (TypeError (NotAFunction "split" (VNum 42))).
Proof.
  intros st net. split; [reflexivity |].
  assert (Hd : exists d, renderDashboard true (data st) = Val (Some d))
    by (eexists; vm_compute; reflexivity).
  destruct Hd as [d Hd].
  refine (proj2 (analysis_not_a_string_breaks_render true net st "analyze"
                   {| ok := true; json := Ok (VObj [("analysis", VNum 42)]) |}
                   (VObj [("analysis", VNum 42)]) (VNum 42) None d
                   eq_refl eq_refl eq_refl eq_refl eq_refl _ eq_refl Hd)).
  discriminate.
Defined.

(** * Further properties of the render *)

Lemma append_assoc (a b c : string) : ((a ++ b) ++ c = a ++ (b ++ c))%string.
Proof. induction a; simpl; congruence. Qed.

Lemma append_empty (a : string) : (a ++ "" = a)%string.
Proof. induction a; simpl; congruence. Qed.

Lemma split_paragraphs_nonempty (s acc : string) :
  split_paragraphs s acc <> [].
Proof.
  revert acc. induction s as [| c rest IH]; intros acc; simpl; [discriminate |].
  destruct rest as [| c' rest']; [discriminate |].
  destruct (Ascii.eqb c LF && Ascii.eqb c' LF); [discriminate | apply IH].
Qed.

Lemma join_cons (sep p : string) (rest : list string) :
  rest <> [] -> join sep (p :: rest) = (p ++ sep ++ join sep rest)%string.
Proof. destruct rest; [congruence | reflexivity]. Qed.

Lemma join_split_paragraphs (n : nat) :
  forall s acc, String.length s <= n ->
    join blank_line (split_paragraphs s acc) = (acc ++ s)%string.
Proof.
  induction n as [| n IH]; intros s acc Hn.
  - destruct s; simpl in *; [now rewrite append_empty | lia].
  - destruct s as [| c rest]; simpl; [now rewrite append_empty |].
    destruct rest as [| c' rest'].
    + reflexivity.
    + destruct (Ascii.eqb c LF) eqn:Ec, (Ascii.eqb c' LF) eqn:Ec';
        simpl andb; cbv iota;
        try (rewrite IH by (simpl in *; lia);
             rewrite append_assoc; reflexivity).
      apply Ascii.eqb_eq in Ec, Ec'. subst c c'.
      rewrite join_cons by apply split_paragraphs_nonempty.
      rewrite IH by (simpl in *; lia). reflexivity.
Qed.

(** A non-empty analysis text is displayed in full: the section has at
    least one paragraph, and the paragraphs put together again with a blank
    line between them are the text. *)
Theorem analysis_paragraphs_keep_text (st : ViewState) (s : string) :
  analysisContent st = VStr s -> s <> "" ->
  exists p : Prose,
    renderAnalysis st = Ok (Some p) /\
    paragraphs p <> [] /\
    join blank_line (paragraphs p) = s.
Proof.
  intros Hc Hs. unfold renderAnalysis. rewrite Hc.
  destruct s as [| a s]; [congruence |]. cbn [ToBoolean String.eqb negb].
  eexists. split; [reflexivity |]. cbn [paragraphs]. split.
  - apply split_paragraphs_nonempty.
  - now rewrite (join_split_paragraphs _ _ _ (le_n _)).
Qed.

Lemma analysis_paragraphs_keep_text_witness :
  let s := ("Margins rose." ++ blank_line ++ "Debt fell." ++ String LF "")%string in
  let st := with_analysisType (Some "predict")
              (with_analysisContent (VStr s) initial) in
  s <> "" /\
  renderAnalysis st =
  Ok (Some {| prose_heading := "Next Quarter Prediction";
              paragraphs := ["Margins rose."; ("Debt fell." ++ String LF "")%string] |}).
Proof.
  intros s st.
  assert (Hs : s <> "") by discriminate.
  split; [exact Hs |].
  destruct (analysis_paragraphs_keep_text st s eq_refl Hs) as (p & Hp & _).
  rewrite Hp. vm_compute in Hp. injection Hp as <-. reflexivity.
Defined.

(** The chart adapter returns exactly when every item of the sequence is an
    object whose [metrics] is neither null nor undefined; as soon as one
    item, anywhere in the sequence, is not, it throws a TypeError for a
    property read on null or undefined and no chart data is produced. *)
Theorem chart_adapter_all_or_nothing (items : list jsval) :
  (forallb chartable items = true ->
   chart_adapter (VArr items) = Ok (map tuple_of items)) /\
  (forallb chartable items = false ->
   exists key v,
     nullish v = true /\
     chart_adapter (VArr items) = Throw (TypeError (CannotRead key v))).
Proof.
  cbn [chart_adapter].
  induction items as [| q rest [IHok IHko]]; [split; [reflexivity | discriminate] |].
  cbn [forallb map map_result]. destruct (chartable q) eqn:Hq.
  - assert (Hp : chart_point q = Ok (tuple_of q)).
    { destruct q as [| | | | | | fields]; try discriminate.
      unfold chart_point, tuple_of, property. cbn in Hq |- *.
      destruct (lookup "metrics" fields); try discriminate; reflexivity. }
    rewrite Hp. cbn [andb]. split; intros H.
    + cbn. now rewrite (IHok H).
    + destruct (IHko H) as (key & v & Hv & Hrest).
      exists key, v. cbn. now rewrite Hrest.
  - split; [discriminate |]. intros _.
    destruct q as [| | | | | | fields]; cbn;
      try (do 2 eexists; split; [| reflexivity]; reflexivity).
    cbn in Hq. destruct (lookup "metrics" fields); try discriminate;
      cbn; do 2 eexists; (split; [| reflexivity]); reflexivity.
Qed.

Lemma chart_adapter_all_or_nothing_witness :
  forallb chartable [latest_quarter_sample; VNull] = false /\
  chart_adapter (VArr [latest_quarter_sample; VNull])
  = Throw (TypeError (CannotRead "date" VNull)).
Proof.
  split; [reflexivity |].
  destruct (proj2 (chart_adapter_all_or_nothing [latest_quarter_sample; VNull])
              eq_refl) as (key & v & _ & H).
  rewrite H. vm_compute in H. injection H as <- <-. reflexivity.
Defined.

Lemma quarter_date_reads_a_record (dataset : jsval) (i : nat) (t : text) :
  quarter_date dataset i = Val t ->
  exists q, quarter dataset i = Ok q /\ nullish q = false.
Proof.
  unfold quarter_date. destruct (quarter dataset i) as [q | e]; cbn;
    [| discriminate].
  intros H. exists q. split; [reflexivity |].
  destruct q; try reflexivity; discriminate.
Qed.

(** Whenever the dashboard renders, [quarterly_data[0]] and
    [quarterly_data[1]] are both present, neither null nor undefined: lines
    187 and 191 have read their dates.  So in a render that completes the
    optional chaining of the cards block never stops at index 1: each
    previous value is read from the metrics of the second record. *)
Theorem dashboard_renders_with_two_quarters
  (recharts : bool) (dataset : jsval) (d : Dashboard) :
  renderDashboard recharts dataset = Val (Some d) ->
  exists q0 q1,
    quarter dataset 0 = Ok q0 /\ nullish q0 = false /\
    quarter dataset 1 = Ok q1 /\ nullish q1 = false /\
    forall key,
      previous_metric dataset key
      = lift (m <- get q1 "metrics" ;; get m key).
Proof.
  unfold renderDashboard.
  destruct (ToBoolean dataset); [| discriminate].
  destruct (renderHeader dataset) as [h | e |]; try discriminate.
  rewrite bind_Val.
  destruct (quarter_date dataset 0) as [l | e |] eqn:E0; try discriminate.
  rewrite bind_Val.
  destruct (quarter_date dataset 1) as [p | e |] eqn:E1; try discriminate.
  intros _.
  destruct (quarter_date_reads_a_record _ _ _ E0) as (q0 & H0 & N0).
  destruct (quarter_date_reads_a_record _ _ _ E1) as (q1 & H1 & N1).
  exists q0, q1. repeat split; try assumption.
  intros key. unfold previous_metric. rewrite H1. cbn. now rewrite N1.
Qed.

Lemma dashboard_renders_with_two_quarters_witness :
  let two := snapshot [latest_quarter_sample; previous_quarter_sample] in
  exists d,
    renderDashboard true two = Val (Some d) /\
    quarter two 1 = Ok previous_quarter_sample /\
    previous_metric two "Revenue" = Val (VNum 100).
Proof.
  intros two.
  assert (H : exists d, renderDashboard true two = Val (Some d))
    by (eexists; vm_compute; reflexivity).
  destruct H as [d H]. exists d. split; [exact H |].
  destruct (dashboard_renders_with_two_quarters true two d H)
    as (q0 & q1 & _ & _ & H1 & _ & Hprev).
  split; [reflexivity |].
  rewrite (Hprev "Revenue"). vm_compute in H1. injection H1 as <-.
  reflexivity.
Defined.

Section NaN.

Local Open Scope float_scope.

Lemma nan_sub (y : float) : nan - y = nan.
Proof. apply Prim2SF_inj. rewrite sub_spec. reflexivity. Qed.

Lemma nan_div (y : float) : nan / y = nan.
Proof. apply Prim2SF_inj. rewrite div_spec. reflexivity. Qed.

Lemma nan_mul (y : float) : nan * y = nan.
Proof. apply Prim2SF_inj. rewrite mul_spec. reflexivity. Qed.

Lemma lt_not_ge (a b : float) : (a <? b) = true -> (b <=? a) = false.
Proof. rewrite ltb_spec, leb_spec. apply SFltb_not_SFleb. Qed.

(** What [abs x < 1e21] tells about [x]: the tests of [toFixed] fail. *)
Lemma small_number (x : float) :
  (abs x <? 1e21) = true ->
  is_nan x = false /\ is_infinity x = false /\ (1e21 <=? abs x) = false.
Proof.
  intros H. split; [| split; [| now apply lt_not_ge]];
    revert H; unfold is_nan, is_infinity;
    rewrite !ltb_spec, !eqb_spec, !abs_spec;
    set (k := Prim2SF 1e21); vm_compute in k;
    change (Prim2SF infinity) with (S754_infinity false);
    destruct (Prim2SF x) as [b | b | | b m e]; simpl;
      try discriminate; auto.
  intros _. unfold SFeqb. now rewrite SFcompare_refl.
Qed.

End NaN.

(** A card whose current value is missing shows "N/A" and no change
    indicator, whatever the previous value is: the change computed from
    [undefined] is NaN, which the card discards. *)
Theorem card_with_missing_value
  (t : string) (prev d : jsval) (fmt : option (jsval -> outcome text)) :
  numeric_or_absent prev = true -> primitive d = true ->
  fmt = None \/ fmt = Some formatPercent \/ fmt = Some formatPrice ->
  exists card,
    renderMetricCard {| title := t; value := VUndefined; previousValue := prev;
                        date := d; formatFn := fmt |} = Val card /\
    card_value card = lit "N/A" /\ card_change card = None.
Proof.
  intros Hp Hd Hf. unfold renderMetricCard.
  cbn [title value previousValue date formatFn].
  assert (Hc : exists c, percent_change VUndefined (or_default prev VNull)
                         = Val c /\ change_indicator c = None).
  { unfold percent_change, js_sub, js_div, js_mul.
    destruct prev as [| | | y | | |]; try discriminate;
      try (eexists; split; reflexivity).
    cbn [or_default ToNumber]. destruct (ToBoolean (VNum y));
      [| eexists; split; reflexivity].
    rewrite !bind_Val, nan_sub. cbn [ToNumber]. rewrite nan_div, nan_mul.
    eexists. split; reflexivity. }
  destruct Hc as (c & -> & Hc). rewrite bind_Val.
  assert (Hs : match fmt with Some f => f | None => formatCurrency end
                 VUndefined = Val (lit "N/A"))
    by (destruct Hf as [-> | [-> | ->]]; reflexivity).
  rewrite Hs, bind_Val.
  destruct (ToBoolean (or_default d VNull)).
  - destruct d; try discriminate; cbn; eexists; repeat split; assumption.
  - cbn. eexists. repeat split; assumption.
Qed.

Lemma card_with_missing_value_witness :
  numeric_or_absent (VNum 100) = true /\ primitive VUndefined = true /\
  renderMetricCard {| title := "Net Income"; value := VUndefined;
                      previousValue := VNum 100; date := VUndefined;
                      formatFn := None |}
  = Val {| card_title := "Net Income"; card_value := lit "N/A";
           card_date := None; card_change := None |}.
Proof.
  split; [reflexivity |]. split; [reflexivity |].
  destruct (card_with_missing_value "Net Income" (VNum 100) VUndefined None
              eq_refl eq_refl (or_introl eq_refl)) as (card & H & _).
  rewrite H. vm_compute in H. injection H as <-. reflexivity.
Defined.

(** Two keys the header cannot do without.  A dataset with no company_info
    makes the dashboard throw at its first read, [company_info.name]; and a
    company_info with no employees count makes it throw at
    [employees.toLocaleString()], although an absent market cap or EPS
    beside it would be displayed as "N/A". *)
Theorem header_needs_company_and_employees
  (recharts : bool) (dataset : jsval) :
  ToBoolean dataset = true ->
  (forall info, get dataset "company_info" = Ok info -> nullish info = true ->
   renderDashboard recharts dataset = Exn (TypeError (CannotRead "name" info))) /\
  (forall info, get dataset "company_info" = Ok (VObj info) ->
   primitive (lookup "marketCap" info) = true ->
   primitive (lookup "eps" info) = true ->
   nullish (lookup "employees" info) = true ->
   renderDashboard recharts dataset
   = Exn (TypeError (CannotRead "toLocaleString" (lookup "employees" info)))).
Proof.
  intros H. unfold renderDashboard, renderHeader, company_info. rewrite H.
  split.
  - intros info -> Hn. destruct info; try discriminate; reflexivity.
  - intros info -> Hcap Heps Hemp. cbn [bind Monad_result get lift].
    rewrite !bind_Val.
    assert (Hf : forall v, primitive v = true ->
                   exists shown, formatCurrency v = Val shown)
      by (intros v Hv; destruct v; try discriminate; eexists; reflexivity).
    destruct (Hf _ Hcap) as [s1 ->]. rewrite !bind_Val.
    destruct (Hf _ Heps) as [s2 ->]. rewrite !bind_Val.
    now rewrite Hemp.
Qed.

Lemma header_needs_company_and_employees_witness :
  let bare := VObj [("company_info", VObj [("name", VStr "Apple Inc.")]);
                    ("quarterly_data",
                     VArr [latest_quarter_sample; previous_quarter_sample])] in
  ToBoolean bare = true /\
  renderDashboard true bare
  = Exn (TypeError (CannotRead "toLocaleString" VUndefined)).
Proof.
  intros bare. split; [reflexivity |].
  exact (proj2 (header_needs_company_and_employees true bare eq_refl)
           [("name", VStr "Apple Inc.")] eq_refl eq_refl eq_refl eq_refl).
Defined.

(** The chart is optional.  If the dashboard renders with the charting
    library present it renders without it, the same but for the chart; and
    if it renders without the library, then with the library it either
    gains the chart data or fails with the chart adapter's exception. *)
Theorem chart_is_optional (dataset : jsval) (d : Dashboard) :
  (renderDashboard true dataset = Val (Some d) ->
   renderDashboard false dataset =
   Val (Some {| header := header d; latest_quarter := latest_quarter d;
                previous_quarter := previous_quarter d; cards := cards d;
                chart := None |})) /\
  (renderDashboard false dataset = Val (Some d) ->
   chart d = None /\
   renderDashboard true dataset =
   match (qd <- get dataset "quarterly_data" ;; chart_adapter qd) with
   | Ok points =>
       Val (Some {| header := header d; latest_quarter := latest_quarter d;
                    previous_quarter := previous_quarter d; cards := cards d;
                    chart := Some points |})
   | Throw e => Exn e
   end).
Proof.
  unfold renderDashboard, renderChart.
  destruct (ToBoolean dataset); [| split; discriminate].
  destruct (renderHeader dataset) as [h | e |]; [| split; discriminate ..].
  destruct (quarter_date dataset 0) as [l | e |]; [| split; discriminate ..].
  destruct (quarter_date dataset 1) as [p | e |]; [| split; discriminate ..].
  destruct (renderCards dataset) as [cs | e |]; [| split; discriminate ..].
  rewrite !bind_Val.
  destruct (get dataset "quarterly_data") as [qd | e]; cbn;
    [destruct (chart_adapter qd) as [pts | e]; cbn |];
    (split; [try discriminate |]); intros H; injection H as <-;
    repeat split.
Qed.

Lemma chart_is_optional_witness :
  let broken := snapshot [latest_quarter_sample; previous_quarter_sample;
                          VNull] in
  exists d,
    renderDashboard false broken = Val (Some d) /\
    renderDashboard true broken = Exn (TypeError (CannotRead "date" VNull)).
Proof.
  intros broken.
  assert (H : exists d, renderDashboard false broken = Val (Some d))
    by (eexists; vm_compute; reflexivity).
  destruct H as [d H]. exists d. split; [exact H |].
  rewrite (proj2 (proj2 (chart_is_optional broken d) H)). reflexivity.
Defined.

Lemma length_substring (s : string) (n len : nat) :
  n + len <= String.length s -> String.length (substring n len s) = len.
Proof.
  revert n len; induction s as [| a s IH]; intros n len H; simpl in H.
  - assert (n = 0) by lia. assert (len = 0) by lia. subst. reflexivity.
  - destruct n as [| n]; simpl.
    + destruct len as [| len]; simpl; [reflexivity |].
      f_equal. apply IH. simpl. lia.
    + apply IH. lia.
Qed.

(** Below 1e21 in magnitude, [formatPercent] writes a number as an optional
    minus sign, an integer part of at least one digit, a point, exactly two
    more characters and the percent sign. *)
Theorem formatPercent_two_decimals (x : float) :
  (abs x <? 1e21)%float = true ->
  exists sign whole frac : string,
    formatPercent (VNum x)
    = Val (lit (sign ++ whole ++ "." ++ frac ++ "%")) /\
    (sign = "" \/ sign = "-") /\
    1 <= String.length whole /\ String.length frac = 2.
Proof.
  intros H. destruct (small_number x H) as (Hn & Hi & Hb).
  unfold formatPercent, toFixed. cbn [nullish]. rewrite Hn, Hi, Hb.
  unfold fixed_digits. cbn [Nat.eqb]. cbv iota.
  set (m := (zeros _ ++ _)%string).
  assert (Hm : 3 <= String.length m).
  { subst m. rewrite length_append, length_zeros. lia. }
  exists (if (x <? 0)%float then "-" else ""),
         (substring 0 (String.length m - 2) m),
         (substring (String.length m - 2) 2 m).
  split; [| split; [| split]].
  - cbn [cat lit bind Monad_outcome ret]. rewrite !append_assoc. reflexivity.
  - destruct (x <? 0)%float; tauto.
  - rewrite length_substring; lia.
  - apply length_substring. lia.
Qed.

Lemma formatPercent_two_decimals_witness :
  (abs 12.345 <? 1e21)%float = true /\
  exists sign whole frac : string,
    formatPercent (VNum 12.345)
    = Val (lit (sign ++ whole ++ "." ++ frac ++ "%")) /\
    (sign = "" \/ sign = "-") /\
    1 <= String.length whole /\ String.length frac = 2.
Proof.
  split; [reflexivity |].
  exact (formatPercent_two_decimals 12.345 eq_refl).
Defined.

(** A 2xx search response whose body is a falsy JSON value (null, false,
    0, the empty string) is stored like any other.  The page then has no
    error banner and no dashboard: after the form comes what the guard on
    the dataset leaves, the body itself, of which nothing is displayed
    unless it is a number, which is printed ("0" for the body 0).  The
    analysis handler of that page does nothing. *)
Theorem page_after_empty_success
  (recharts : bool) (net : Request -> settled) (w : ViewState)
  (r : Response) (parsed : jsval) (type : string) :
  ticker w <> "" ->
  net (search_request (ticker w)) = Fulfilled r ->
  ok r = true -> json r = Ok parsed -> ToBoolean parsed = false ->
  let wf := fst (complete net (handleSearch w w)) in
  render recharts wf =
  Val {| page_form := {| input_value := ticker w; submit_disabled := false;
                         submit_label := "Search" |};
         page_banner := None;
         page_panel := Residue parsed |} /\
  (residue_text parsed = None <-> forall x, parsed <> VNum x) /\
  (forall x, parsed = VNum x -> is_nan x = false ->
             residue_text parsed = Some "0") /\
  handleAnalysisClick wf type wf = Return wf (Ok tt).
Proof.
  intros H Hn Hok Hj Hp wf. subst wf.
  rewrite (handleSearch_complete net w w H).
  unfold search_outcome, request_outcome. rewrite Hn, Hj, Hok.
  destruct (ticker w) as [| b t] eqn:E; [congruence |].
  unfold render, renderForm, renderBanner, renderDashboard, handleAnalysisClick.
  cbn. rewrite Hp, E. repeat split.
  - intros Hr x ->. discriminate.
  - intros Hx. destruct parsed; try reflexivity. now destruct (Hx x).
  - intros x -> Hnan. unfold residue_text. now rewrite Hnan.
Qed.

Lemma page_after_empty_success_witness :
  let after (parsed : jsval) :=
    fst (complete (answers {| ok := true; json := Ok parsed |})
           (handleSearch (typed "aapl") (typed "aapl"))) in
  ticker (typed "aapl") <> "" /\
  render true (after VNull) =
  Val {| page_form := {| input_value := "aapl"; submit_disabled := false;
                         submit_label := "Search" |};
         page_banner := None;
         page_panel := Residue VNull |} /\
  render true (after (VNum 0)) =
  Val {| page_form := {| input_value := "aapl"; submit_disabled := false;
                         submit_label := "Search" |};
         page_banner := None;
         page_panel := Residue (VNum 0) |} /\
  residue_text (VNum 0) = Some "0" /\
  pending (handleAnalysisClick (after VNull) "risk" (after VNull)) = None.
Proof.
  intros after.
  assert (H : ticker (typed "aapl") <> "") by discriminate.
  assert (Hc := fun parsed =>
            page_after_empty_success true
              (answers {| ok := true; json := Ok parsed |}) (typed "aapl")
              {| ok := true; json := Ok parsed |} parsed "risk"
              H eq_refl eq_refl eq_refl).
  destruct (Hc VNull eq_refl) as (Hr & _ & _ & Ha).
  destruct (Hc (VNum 0) eq_refl) as (Hr0 & _ & Hz & _).
  split; [exact H |]. split; [exact Hr |]. split; [exact Hr0 |].
  split; [exact (Hz 0%float eq_refl eq_refl) |].
  unfold after. rewrite Ha. reflexivity.
Defined.
